(** * eCurtains: position/threshold model and command dispatcher

    A shallow embedding of the motion and calibration logic of
    [eCurtains.ino] (firmware v1.07): [move_motor], the [/api] dispatcher
    [handle_api], the web-interface handlers and the control [loop].

    The firmware computes with C++ [float] (IEEE-754 binary32) and, where a
    [double] literal takes part in an expression, with binary64.  Both are
    modelled with the parameterised IEEE specification of the standard
    library ([SpecFloat]), so every definition evaluates bit for bit like the
    code. *)

From Stdlib Require Import ZArith Bool List String Ascii Lia.
From Stdlib Require Import SpecFloat.
Import ListNotations.

Local Open Scope Z_scope.
Local Open Scope string_scope.

(** ** IEEE-754 arithmetic as the firmware uses it *)

Module F32.

(** C++ [float] on the ESP8266: 24 bits of precision, infinities at 2^128. *)
Definition prec : Z := 24.
Definition emax : Z := 128.

Definition t : Type := spec_float.

Definition add : t -> t -> t := SFadd prec emax.
Definition sub : t -> t -> t := SFsub prec emax.
Definition mul : t -> t -> t := SFmul prec emax.

(** [x < y], [x > y], [x <= y] and [x == y] of C++; all are false as soon
    as one operand is a NaN. *)
Definition lt (x y : t) : bool := SFltb x y.
Definition gt (x y : t) : bool := SFltb y x.
Definition le (x y : t) : bool := SFleb x y.
Definition eq (x y : t) : bool := SFeqb x y.

Definition is_nan (x : t) : bool :=
  match x with S754_nan => true | _ => false end.

(** The float nearest to the integer [m * 2^e] (round to nearest even). *)
Definition of_Z2 (m e : Z) : t := binary_normalize prec emax m e false.
Definition of_Z (z : Z) : t := of_Z2 z 0.

End F32.

Module F64.

(** C++ [double]: 53 bits of precision, infinities at 2^1024. *)
Definition prec : Z := 53.
Definition emax : Z := 1024.

Definition t : Type := spec_float.

Definition sub : t -> t -> t := SFsub prec emax.
Definition mul : t -> t -> t := SFmul prec emax.
Definition div : t -> t -> t := SFdiv prec emax.
Definition lt (x y : t) : bool := SFltb x y.
Definition gt (x y : t) : bool := SFltb y x.
Definition fabs : t -> t := SFabs.

Definition of_Z2 (m e : Z) : t := binary_normalize prec emax m e false.
Definition of_Z (z : Z) : t := of_Z2 z 0.

(** The double nearest to the decimal [n / 10^k]: the quotient is rounded
    once, from operands that are taken exactly. *)
Definition of_dec (n : Z) (k : nat) : t :=
  match n with
  | Z0 => S754_zero false
  | Zpos p => SFdiv prec emax (S754_finite false p 0)
                (S754_finite false (Z.to_pos (10 ^ Z.of_nat k)) 0)
  | Zneg p => SFdiv prec emax (S754_finite true p 0)
                (S754_finite false (Z.to_pos (10 ^ Z.of_nat k)) 0)
  end.

(** Promotion [float -> double] (exact) and the rounding conversion
    [double -> float] of an assignment to a [float] variable. *)
Definition of_float (x : F32.t) : t :=
  match x with
  | S754_finite s m e => binary_normalize prec emax (cond_Zopp s (Zpos m)) e s
  | _ => x
  end.

Definition to_float (x : t) : F32.t :=
  match x with
  | S754_finite s m e =>
      binary_normalize F32.prec F32.emax (cond_Zopp s (Zpos m)) e s
  | _ => x
  end.

End F64.

Arguments F32.add : simpl never.
Arguments F32.sub : simpl never.
Arguments F32.mul : simpl never.
Arguments F32.lt : simpl never.
Arguments F32.gt : simpl never.
Arguments F32.le : simpl never.
Arguments F32.of_Z : simpl never.
Arguments F64.of_float : simpl never.
Arguments F64.to_float : simpl never.
Arguments F64.of_Z : simpl never.
Arguments F64.of_Z2 : simpl never.
Arguments F64.div : simpl never.
Arguments F64.mul : simpl never.
Arguments F64.sub : simpl never.
Arguments F64.lt : simpl never.
Arguments F64.gt : simpl never.
Arguments F64.fabs : simpl never.

(** The fixed-point literal [n / 10^k] as the [float] a C++ literal narrowed
    to [float] yields. *)
Definition lit (n : Z) (k : nat) : F32.t := F64.to_float (F64.of_dec n k).

(** ** Constants of the firmware ([#define]s and globals) *)

(** [#define] float literals are C++ [double]s; they are narrowed to [float]
    where the code assigns them to a [float] or passes them as one. *)
Definition STEPS_PER_REVOLUTION_28BYJ : Z := 2048.
Definition STEPS_PER_REVOLUTION_NEMA17 : Z := 200.
Definition MOTOR_ACCELERATION : F64.t := F64.of_dec 1000 1.
Definition MOTOR_MAX_SPEED : F64.t := F64.of_dec 2500 1.
Definition DEFAULT_POSITION_LEFT : F64.t := F64.of_dec (-1000) 1.
Definition DEFAULT_POSITION_CURRENT_PREVIOUS : F64.t := F64.of_dec 0 1.
Definition DEFAULT_POSITION_CURRENT : F64.t := F64.of_dec 0 1.
Definition DEFAULT_POSITION_RIGHT : F64.t := F64.of_dec 1000 1.
Definition LENGTH_API_KEY : Z := 64.
Definition g_epsilon : F64.t := F64.of_dec 1 5.
Definition DEFAULT_LANGUAGE : Z := 1.

Definition g_current_version : F32.t := F64.to_float (F64.of_dec 107 2).
Definition g_default_host_name : string := "eCurtains".
Definition g_default_api_key : string := "27031969".
Definition g_default_web_user : string := "admin".
Definition g_default_web_password : string := "notdodo".

(** ** The settings record [g_data], as written to the EEPROM *)

Record settings : Type := mk_settings {
  ssid : string;
  password : string;
  version : F32.t;
  hostname : string;
  apikey : string;
  apikey_set : Z;
  position_left : F32.t;
  position_current_previous : F32.t;
  position_current : F32.t;
  position_right : F32.t;
  language : Z;
  web_user : string;
  web_password : string;
  motor_acceleration : F32.t;
  motor_max_speed : F32.t;
  steps_per_revolution : F32.t;
  stepper_motor_and_driver : Z
}.

(** Field assignments [g_data.f = v]. *)
Definition set_hostname (v : string) (d : settings) : settings :=
  mk_settings (ssid d) (password d) (version d) v (apikey d) (apikey_set d)
    (position_left d) (position_current_previous d) (position_current d)
    (position_right d) (language d) (web_user d) (web_password d)
    (motor_acceleration d) (motor_max_speed d) (steps_per_revolution d)
    (stepper_motor_and_driver d).

Definition set_apikey (v : string) (d : settings) : settings :=
  mk_settings (ssid d) (password d) (version d) (hostname d) v (apikey_set d)
    (position_left d) (position_current_previous d) (position_current d)
    (position_right d) (language d) (web_user d) (web_password d)
    (motor_acceleration d) (motor_max_speed d) (steps_per_revolution d)
    (stepper_motor_and_driver d).

Definition set_apikey_set (v : Z) (d : settings) : settings :=
  mk_settings (ssid d) (password d) (version d) (hostname d) (apikey d) v
    (position_left d) (position_current_previous d) (position_current d)
    (position_right d) (language d) (web_user d) (web_password d)
    (motor_acceleration d) (motor_max_speed d) (steps_per_revolution d)
    (stepper_motor_and_driver d).

Definition set_position_left (v : F32.t) (d : settings) : settings :=
  mk_settings (ssid d) (password d) (version d) (hostname d) (apikey d)
    (apikey_set d) v (position_current_previous d) (position_current d)
    (position_right d) (language d) (web_user d) (web_password d)
    (motor_acceleration d) (motor_max_speed d) (steps_per_revolution d)
    (stepper_motor_and_driver d).

Definition set_position_current_previous (v : F32.t) (d : settings) : settings :=
  mk_settings (ssid d) (password d) (version d) (hostname d) (apikey d)
    (apikey_set d) (position_left d) v (position_current d)
    (position_right d) (language d) (web_user d) (web_password d)
    (motor_acceleration d) (motor_max_speed d) (steps_per_revolution d)
    (stepper_motor_and_driver d).

Definition set_position_current (v : F32.t) (d : settings) : settings :=
  mk_settings (ssid d) (password d) (version d) (hostname d) (apikey d)
    (apikey_set d) (position_left d) (position_current_previous d) v
    (position_right d) (language d) (web_user d) (web_password d)
    (motor_acceleration d) (motor_max_speed d) (steps_per_revolution d)
    (stepper_motor_and_driver d).

Definition set_position_right (v : F32.t) (d : settings) : settings :=
  mk_settings (ssid d) (password d) (version d) (hostname d) (apikey d)
    (apikey_set d) (position_left d) (position_current_previous d)
    (position_current d) v (language d) (web_user d) (web_password d)
    (motor_acceleration d) (motor_max_speed d) (steps_per_revolution d)
    (stepper_motor_and_driver d).

Definition set_language (v : Z) (d : settings) : settings :=
  mk_settings (ssid d) (password d) (version d) (hostname d) (apikey d)
    (apikey_set d) (position_left d) (position_current_previous d)
    (position_current d) (position_right d) v (web_user d) (web_password d)
    (motor_acceleration d) (motor_max_speed d) (steps_per_revolution d)
    (stepper_motor_and_driver d).

Definition set_motor_acceleration (v : F32.t) (d : settings) : settings :=
  mk_settings (ssid d) (password d) (version d) (hostname d) (apikey d)
    (apikey_set d) (position_left d) (position_current_previous d)
    (position_current d) (position_right d) (language d) (web_user d)
    (web_password d) v (motor_max_speed d) (steps_per_revolution d)
    (stepper_motor_and_driver d).

Definition set_motor_max_speed (v : F32.t) (d : settings) : settings :=
  mk_settings (ssid d) (password d) (version d) (hostname d) (apikey d)
    (apikey_set d) (position_left d) (position_current_previous d)
    (position_current d) (position_right d) (language d) (web_user d)
    (web_password d) (motor_acceleration d) v (steps_per_revolution d)
    (stepper_motor_and_driver d).

(** ** External collaborators *)

(** The AccelStepper library drives the motor.  It is not part of the
    firmware; the firmware only relies on the calls below.  [move] receives
    the [float] product the firmware passes (the C++ conversion to [long]
    happens at the call).  The one law is the contract of
    [setCurrentPosition]: it overwrites the step counter. *)
Class AccelStepper (M : Type) : Type := {
  isRunning : M -> bool;
  currentPosition : M -> Z;
  setCurrentPosition : Z -> M -> M;
  move : F32.t -> M -> M;
  stop : M -> M;
  run : M -> M;
  setAcceleration : F32.t -> M -> M;
  setMaxSpeed : F32.t -> M -> M;
  enableOutputs : M -> M;
  disableOutputs : M -> M;
  currentPosition_setCurrentPosition :
    forall p m, currentPosition (setCurrentPosition p m) = p
}.

(** The conversions of the Arduino [String] class ([atof] and [atol]). *)
Class WString : Type := {
  toFloat : string -> F32.t;
  toInt : string -> Z
}.

(** ** Observable output and the state of the device *)

(** One piece of text written to the serial console or into an HTTP body:
    a literal, a [float] (printed with two decimals), an [int], the end of a
    line, or the HTML page that [get_page] renders from the settings. *)
Inductive item : Type :=
| Txt (s : string)
| Flt (x : F32.t)
| Int (z : Z)
| Eol
| Page (d : settings).

Inductive eeprom_image : Type :=
| Erased
| Stored (d : settings).

Record world (M : Type) : Type := mk_world {
  g_data : settings;
  EEPROM : eeprom_image;
  g_AccelStepper : M;
  MOTOR_PIN3_high : bool;
  Serial : list item;
  sent : list (Z * list item);
  restarted : bool
}.

Arguments mk_world {M}.
Arguments g_data {M}.
Arguments EEPROM {M}.
Arguments g_AccelStepper {M}.
Arguments MOTOR_PIN3_high {M}.
Arguments Serial {M}.
Arguments sent {M}.
Arguments restarted {M}.

(** ** A state monad for the imperative code *)

Definition io (M A : Type) : Type := world M -> A * world M.

Definition ret {M A} (a : A) : io M A := fun w => (a, w).

Definition bind {M A B} (c : io M A) (k : A -> io M B) : io M B :=
  fun w => let (a, w') := c w in k a w'.

Declare Scope io_scope.
Delimit Scope io_scope with io.
Notation "x <- c ;; k" := (bind c (fun x => k))
  (at level 61, c at next level, right associativity) : io_scope.
Notation "c ;; k" := (bind c (fun _ => k))
  (at level 61, right associativity) : io_scope.
Local Open Scope io_scope.

Definition exec {M A} (c : io M A) (w : world M) : world M := snd (c w).

Section Primitives.

Context {M : Type}.

Definition get_data : io M settings := fun w => (g_data w, w).

Definition modify_data (f : settings -> settings) : io M unit :=
  fun w => (tt, mk_world (f (g_data w)) (EEPROM w) (g_AccelStepper w)
                  (MOTOR_PIN3_high w) (Serial w) (sent w) (restarted w)).

(** [EEPROM.put( g_start_eeprom_address, g_data ); EEPROM.commit();] *)
Definition EEPROM_put_commit : io M unit :=
  fun w => (tt, mk_world (g_data w) (Stored (g_data w)) (g_AccelStepper w)
                  (MOTOR_PIN3_high w) (Serial w) (sent w) (restarted w)).

(** The loop that fills the allocated EEPROM block with zero bytes. *)
Definition EEPROM_clear_commit : io M unit :=
  fun w => (tt, mk_world (g_data w) Erased (g_AccelStepper w)
                  (MOTOR_PIN3_high w) (Serial w) (sent w) (restarted w)).

Definition get_stepper : io M M := fun w => (g_AccelStepper w, w).

Definition modify_stepper (f : M -> M) : io M unit :=
  fun w => (tt, mk_world (g_data w) (EEPROM w) (f (g_AccelStepper w))
                  (MOTOR_PIN3_high w) (Serial w) (sent w) (restarted w)).

(** [pinMode( MOTOR_PIN3, OUTPUT ); digitalWrite( MOTOR_PIN3, level );] *)
Definition digitalWrite_MOTOR_PIN3 (high : bool) : io M unit :=
  fun w => (tt, mk_world (g_data w) (EEPROM w) (g_AccelStepper w)
                  high (Serial w) (sent w) (restarted w)).

Definition Serial_write (l : list item) : io M unit :=
  fun w => (tt, mk_world (g_data w) (EEPROM w) (g_AccelStepper w)
                  (MOTOR_PIN3_high w) (Serial w ++ l) (sent w) (restarted w)).

Definition Serial_print (i : item) : io M unit := Serial_write [i].
Definition Serial_println (i : item) : io M unit := Serial_write [i; Eol].

(** [server.send ( code, "text/html", body );] *)
Definition server_send (code : Z) (body : list item) : io M unit :=
  fun w => (tt, mk_world (g_data w) (EEPROM w) (g_AccelStepper w)
                  (MOTOR_PIN3_high w) (Serial w) (sent w ++ [(code, body)])
                  (restarted w)).

Definition ESP_restart : io M unit :=
  fun w => (tt, mk_world (g_data w) (EEPROM w) (g_AccelStepper w)
                  (MOTOR_PIN3_high w) (Serial w) (sent w) true).

End Primitives.

(** ** The firmware *)

Section Firmware.

Context {M : Type} `{AccelStepper M} `{WString}.

(** [flash_internal_led] and the [delay] calls only toggle the on-board LED
    and wait; they touch neither the settings nor the motor and are left
    out. *)

(** *** [move_motor] *)

Definition move_motor (no_rotations : F32.t) : io M F32.t :=
  stepper <- get_stepper ;;
  (* If motor is busy with moving, then ignore the request *)
  if isRunning stepper then
    Serial_println (Txt "Motor still running, ignoring request to move") ;;
    ret (F64.to_float (F64.of_dec 0 1))
  else
    d <- get_data ;;
    Serial_print (Txt "Motor Positions: left='") ;;
    Serial_print (Flt (position_left d)) ;;
    Serial_print (Txt "', previous='") ;;
    Serial_print (Flt (position_current_previous d)) ;;
    Serial_print (Txt "', current='") ;;
    Serial_print (Flt (position_current d)) ;;
    Serial_print (Txt "', right='") ;;
    Serial_print (Flt (position_right d)) ;;
    Serial_println (Txt "'") ;;
    no_rotations <-
      (* Check if you do not go below the 'left' threshold *)
      (if F32.lt (F32.add (position_current d) no_rotations) (position_left d)
       then
         let no_rotations := F32.sub (position_left d) (position_current d) in
         modify_data (set_position_current_previous (position_current d)) ;;
         modify_data (set_position_current (position_left d)) ;;
         ret no_rotations
       (* Check if you do not go above the 'right' threshold *)
       else if F32.gt (F32.add (position_current d) no_rotations)
                      (position_right d)
       then
         let no_rotations := F32.sub (position_right d) (position_current d) in
         modify_data (set_position_current_previous (position_current d)) ;;
         modify_data (set_position_current (position_right d)) ;;
         ret no_rotations
       (* No threshold exceeded *)
       else
         modify_data (set_position_current_previous (position_current d)) ;;
         modify_data
           (set_position_current (F32.add (position_current d) no_rotations)) ;;
         ret no_rotations) ;;
    d <- get_data ;;
    Serial_print (Txt "Motor will move to position '") ;;
    Serial_print (Flt (position_current d)) ;;
    Serial_print (Txt "' (using '") ;;
    Serial_print (Flt no_rotations) ;;
    Serial_println (Txt "' rotations)") ;;
    (* Update expected new current position into EEPROM *)
    EEPROM_put_commit ;;
    (* Check which motor driver is used *)
    (if Z.eqb (stepper_motor_and_driver d) 0
     then modify_stepper enableOutputs
     else digitalWrite_MOTOR_PIN3 true) ;;
    (* Initialize current position in internal administration of AccelStepper *)
    modify_stepper (setCurrentPosition 0) ;;
    (* Give stepper instruction to move the motor *)
    modify_stepper (move (F32.mul no_rotations (steps_per_revolution d))) ;;
    ret no_rotations.

(** *** The code shared by the two stop handlers

    [handle_api] (action [stop_motor]) and [handle_stop_motor] contain the
    same statements between their first and last line; [report] is the one
    difference: only the web handler prints the distance. *)
Definition positions_moved_of (raw : Z) (d : settings) : F32.t :=
  F64.to_float
    (F64.div (F64.of_Z raw)
             (F64.mul (F64.of_float (steps_per_revolution d)) (F64.of_Z2 1 0))).

Definition motor_even_moved (positions_moved : F32.t) : bool :=
  F64.gt (F64.fabs (F64.of_float positions_moved)) g_epsilon.

Definition stop_and_reconcile (report : bool) : io M unit :=
  (* Stop current motor action *)
  modify_stepper stop ;;
  (* Calculate positions moved *)
  stepper <- get_stepper ;;
  d <- get_data ;;
  let positions_moved := positions_moved_of (currentPosition stepper) d in
  (if report then
     Serial_print (Txt "Positions moved until stopped = '") ;;
     Serial_print (Flt positions_moved) ;;
     Serial_println (Txt "'")
   else ret tt) ;;
  (* Check if motor even moved *)
  (if motor_even_moved positions_moved then
     modify_data
       (set_position_current
          (F32.add (position_current_previous d) positions_moved)) ;;
     EEPROM_put_commit
   else ret tt) ;;
  modify_stepper (setCurrentPosition 0).

(** The calibration check of [move_total_left] and [move_total_right]:
    [fabs (position - DEFAULT) < g_epsilon], computed in [double]. *)
Definition threshold_not_set (position : F32.t) (default : F64.t) : bool :=
  F64.lt (F64.fabs (F64.sub (F64.of_float position) default)) g_epsilon.

(** *** [handle_api]: the [/api?action=..&value=..&api=..] dispatcher *)

Definition handle_api (action value api : string) : io M unit :=
  Serial_write
    [Eol; Txt "Webserver API called with parameters (action='"; Txt action;
     Txt "', value='"; Txt value; Txt "', api='"; Txt api; Txt "')";
     Eol; Eol] ;;
  d <- get_data ;;
  (* First check if user wants to set new API key
     (only possible when not already set) *)
  (if String.eqb action "set_api" && Z.eqb (apikey_set d) 0
      && negb (String.eqb api g_default_api_key)
   then
     Serial_println (Txt "Handle 'set_api' action") ;;
     (* Make sure that API key is not bigger as 64 characters *)
     if Z.gtb (Z.of_nat (String.length api)) LENGTH_API_KEY then
       server_send 501
         [Txt "NOK (API key '"; Txt api; Txt "' is bigger then '";
          Int LENGTH_API_KEY; Txt "' characters)"]
     else
       Serial_print (Txt "Setting API key to value: '") ;;
       Serial_print (Txt value) ;;
       Serial_println (Txt "'") ;;
       modify_data (set_apikey value) ;;
       modify_data (set_apikey_set 1) ;;
       (* replace values in EEPROM *)
       EEPROM_put_commit ;;
       d <- get_data ;;
       server_send 200
         [Txt "OK (API key set to value '"; Txt (apikey d); Txt "')"]
   else ret tt) ;;
  d <- get_data ;;
  (* API key valid? *)
  if negb (String.eqb api (apikey d)) then
    server_send 501
      [Txt "NOK (you are not authorized to perform an action without a valid API key, provided api-key '";
       Txt api; Txt "')"]
  (* Action: reboot *)
  else if String.eqb action "reboot" then
    Serial_println (Txt "Handle 'reboot' action") ;;
    server_send 200 [Txt "OK"] ;;
    if String.eqb value "true" then
      Serial_println (Txt "Rebooting ESP8266") ;;
      ESP_restart
    else ret tt
  (* Action: reset *)
  else if String.eqb action "reset" then
    Serial_println (Txt "Handle 'reset' action") ;;
    server_send 200 [Txt "OK"] ;;
    if String.eqb value "true" then
      Serial_println (Txt "Clearing EEPROM values of ESP8266") ;;
      (* Fill used EEPROM block with 00 bytes *)
      EEPROM_clear_commit ;;
      ESP_restart
    else ret tt
  (* Action: set_host *)
  else if String.eqb action "set_host" then
    Serial_println (Txt "Handle 'set_host' action") ;;
    (* Make sure that value is supplied for hostname *)
    if String.eqb value "" then
      Serial_println (Txt "No hostname supplied for 'set_host' action") ;;
      server_send 501
        [Txt "NOK (no hostname supplied for 'set_host' action)"]
    else
      (* Set new Hostname *)
      modify_data (set_hostname value) ;;
      (* Replace values in EEPROM *)
      EEPROM_put_commit ;;
      Serial_print (Txt "Setting hostname to: '") ;;
      Serial_print (Txt value) ;;
      Serial_println (Txt "'") ;;
      server_send 200 [Txt "OK (hostname set to value '"; Txt value; Txt "')"]
  (* Action: set_language *)
  else if String.eqb action "set_language" then
    Serial_println (Txt "Handle 'set_language' action") ;;
    (* Make sure that value is supplied for hostname *)
    if String.eqb value "" then
      Serial_println
        (Txt "No language supplied for 'set_language' action, falling back to English") ;;
      modify_data (set_language 0) ;;
      (* Replace values in EEPROM *)
      EEPROM_put_commit ;;
      server_send 501
        [Txt "NOK (no language supplied for 'set_language' action, falling back to English"]
    else if Z.ltb (toInt value) 0 || Z.gtb (toInt value) 1 then
      Serial_println
        (Txt "Unknown language supplied for 'set_language' action, falling back to English") ;;
      modify_data (set_language 0) ;;
      (* Replace values in EEPROM *)
      EEPROM_put_commit ;;
      server_send 501
        [Txt "NOK (unknown language supplied for 'set_language' action, falling back to English"]
    else
      modify_data (set_language (toInt value)) ;;
      (* Replace values in EEPROM *)
      EEPROM_put_commit ;;
      d <- get_data ;;
      server_send 200
        [Txt "OK (language set to value '"; Int (language d); Txt "')"]
  (* Action: reset_left *)
  else if String.eqb action "reset_left" then
    Serial_println (Txt "Handle 'reset_left' action") ;;
    modify_data (set_position_left (F64.to_float DEFAULT_POSITION_LEFT)) ;;
    (* Replace values in EEPROM *)
    EEPROM_put_commit ;;
    server_send 200 [Txt "OK (treshold 'left' set to default value)"]
  (* Action: reset_current *)
  else if String.eqb action "reset_current" then
    Serial_println (Txt "Handle 'reset_current' action") ;;
    modify_data
      (set_position_current_previous
         (F64.to_float DEFAULT_POSITION_CURRENT_PREVIOUS)) ;;
    modify_data
      (set_position_current (F64.to_float DEFAULT_POSITION_CURRENT)) ;;
    (* Replace values in EEPROM *)
    EEPROM_put_commit ;;
    server_send 200 [Txt "OK (current position set to default value"]
  (* Action: reset_right *)
  else if String.eqb action "reset_right" then
    Serial_println (Txt "Handle 'reset_right' action") ;;
    modify_data (set_position_right (F64.to_float DEFAULT_POSITION_RIGHT)) ;;
    (* Replace values in EEPROM *)
    EEPROM_put_commit ;;
    server_send 200 [Txt "OK (treshold 'right' set to default value)"]
  (* Action: set_left *)
  else if String.eqb action "set_left" then
    Serial_println (Txt "Handle 'set_left' action") ;;
    (* Set new 'left' threshold
       (if no value is provided then assume current position) *)
    let position_left' :=
      if negb (String.eqb value "") then toFloat value
      else position_current d in
    (* Safety check: 'left' threshold cannot be bigger than 'right' treshold *)
    if F32.gt position_left' (position_right d)
       || F32.gt position_left' (position_current d)
    then
      Serial_println
        (Txt "Treshold 'left' cannot be bigger than 'current' position or treshold 'right' for 'set_motor_left' action") ;;
      Serial_print (Txt "Requested: left='") ;;
      Serial_print (Flt position_left') ;;
      Serial_print (Txt "', Configured left='") ;;
      Serial_print (Flt (position_left d)) ;;
      Serial_print (Txt "', Current='") ;;
      Serial_print (Flt (position_current d)) ;;
      Serial_print (Txt "', Configured right='") ;;
      Serial_print (Flt (position_right d)) ;;
      Serial_println (Txt "'") ;;
      server_send 501
        [Txt "NOK (treshold 'left' cannot be bigger than treshold 'right' for 'set_motor_left' action)"]
    else
      (* Display current 'treshold' *)
      Serial_print (Txt "BEFORE: left=") ;;
      Serial_print (Flt (position_left d)) ;;
      Serial_print (Txt "', cur='") ;;
      Serial_print (Flt (position_current d)) ;;
      Serial_print (Txt "', right='") ;;
      Serial_print (Flt (position_right d)) ;;
      Serial_println (Txt "'") ;;
      (* Display new 'treshold' *)
      Serial_print (Txt "AFTER : left=") ;;
      Serial_print (Flt position_left') ;;
      Serial_print (Txt "', cur='") ;;
      Serial_print (Flt (position_current d)) ;;
      Serial_print (Txt "', right='") ;;
      Serial_print (Flt (position_right d)) ;;
      Serial_println (Txt "'") ;;
      (* Update new 'left' threshold into EEPROM *)
      modify_data (set_position_left position_left') ;;
      EEPROM_put_commit ;;
      server_send 200
        [Txt "OK (threshold 'left' set to value '"; Flt position_left';
         Txt "')"]
  (* Action: move_motor *)
  else if String.eqb action "move_motor" then
    Serial_println (Txt "Handle 'motor' action") ;;
    (* Make sure that value is supplied for 'move_motor' action *)
    if String.eqb value "" then
      Serial_println (Txt "No value supplied for 'move_motor' action") ;;
      server_send 501 [Txt "NOK (no value supplied for 'move_motor' action)"]
    else
      Serial_print (Txt "Requested to move motor with '") ;;
      Serial_print (Txt value) ;;
      Serial_println (Txt "' rotations") ;;
      actual_performed_rotations <- move_motor (toFloat value) ;;
      server_send 200
        [Txt "OK (the 'move_motor' action has performed '";
         Flt actual_performed_rotations; Txt "' rotations)"]
  (* Action: set_right *)
  else if String.eqb action "set_right" then
    Serial_println (Txt "Handle 'set_right' action") ;;
    (* Set new 'right' threshold
       (if no value is provided then assume current position) *)
    let position_right' :=
      if negb (String.eqb value "") then toFloat value
      else position_current d in
    (* Safety check: 'right' threshold cannot be smaller than 'left' treshold *)
    if F32.lt position_right' (position_left d)
       || F32.lt position_right' (position_current d)
    then
      Serial_println
        (Txt "Treshold 'right' cannot be smaller than 'current' position or treshold 'left'") ;;
      Serial_print (Txt "Requested: right='") ;;
      Serial_print (Flt position_right') ;;
      Serial_print (Txt "', Configured left='") ;;
      Serial_print (Flt (position_left d)) ;;
      Serial_print (Txt "', Current='") ;;
      Serial_print (Flt (position_current d)) ;;
      Serial_print (Txt "', Configured right='") ;;
      Serial_print (Flt (position_right d)) ;;
      Serial_println (Txt "'") ;;
      server_send 501
        [Txt "NOK (treshold 'right' cannot be smaller than treshold 'left')"]
    else
      (* Display current 'treshold' *)
      Serial_print (Txt "BEFORE: left=") ;;
      Serial_print (Flt (position_left d)) ;;
      Serial_print (Txt "', cur='") ;;
      Serial_print (Flt (position_current d)) ;;
      Serial_print (Txt "', right='") ;;
      Serial_print (Flt (position_right d)) ;;
      Serial_println (Txt "'") ;;
      (* Display new 'treshold' *)
      Serial_print (Txt "AFTER : left=") ;;
      Serial_print (Flt (position_left d)) ;;
      Serial_print (Txt "', cur='") ;;
      Serial_print (Flt (position_current d)) ;;
      Serial_print (Txt "', right='") ;;
      Serial_print (Flt position_right') ;;
      Serial_println (Txt "'") ;;
      (* Update new 'right' threshold into EEPROM *)
      modify_data (set_position_right position_right') ;;
      EEPROM_put_commit ;;
      server_send 200
        [Txt "OK (threshold 'right' set to value '"; Flt position_right';
         Txt "')"]
  (* Action: move_total_left *)
  else if String.eqb action "move_total_left" then
    Serial_println (Txt "Handle 'move_total_left' action") ;;
    (* Only 'move total left' in case 'left' treshold is set *)
    if threshold_not_set (position_left d) DEFAULT_POSITION_LEFT then
      Serial_println (Txt "NOK ('left' treshold not set yet)") ;;
      server_send 501 [Txt "NOK ('left' treshold not set yet)"]
    else
      (* Move motor to the total left *)
      move_motor (F64.to_float DEFAULT_POSITION_LEFT) ;;
      server_send 200 [Txt "OK"]
  (* Action: move_total_right *)
  else if String.eqb action "move_total_right" then
    Serial_println (Txt "Handle 'move_total_right' action") ;;
    if threshold_not_set (position_right d) DEFAULT_POSITION_RIGHT then
      Serial_println (Txt "NOK ('right' treshold not set yet)") ;;
      server_send 501 [Txt "NOK ('right' treshold not set yet)"]
    else
      (* Move motor to the total right *)
      move_motor (F64.to_float DEFAULT_POSITION_RIGHT) ;;
      server_send 200 [Txt "OK"]
  (* Action: stop_motor *)
  else if String.eqb action "stop_motor" then
    Serial_println (Txt "Handle 'stop_motor' action") ;;
    stop_and_reconcile false ;;
    server_send 200 [Txt "OK"]
  (* Action: motor_acceleration *)
  else if String.eqb action "motor_acceleration" then
    Serial_println (Txt "Handle 'motor_acceleration' action") ;;
    modify_data (set_motor_acceleration (toFloat value)) ;;
    EEPROM_put_commit ;;
    d <- get_data ;;
    (* Set acceleration *)
    modify_stepper (setAcceleration (motor_acceleration d)) ;;
    (* Set maximum motor speed *)
    modify_stepper (setMaxSpeed (motor_max_speed d)) ;;
    server_send 200 [Txt "OK"]
  else if String.eqb action "motor_max_speed" then
    Serial_println (Txt "Handle 'motor_max_speed' action") ;;
    modify_data (set_motor_max_speed (toFloat value)) ;;
    EEPROM_put_commit ;;
    d <- get_data ;;
    (* Set acceleration *)
    modify_stepper (setAcceleration (motor_acceleration d)) ;;
    (* Set maximum motor speed *)
    modify_stepper (setMaxSpeed (motor_max_speed d)) ;;
    server_send 200 [Txt "OK"]
  (* Unknown action supplied *)
  else
    Serial_println (Txt "Unknown action") ;;
    server_send 501 [Txt "NOK (unknown action supplied)"].

(** *** The buttons of the web interface

    [handle_root] checks the login cookie and calls one of the handlers
    below for the button that was pressed; each answers with the page
    [get_page] renders. *)

Definition send_page (code : Z) : io M unit :=
  d <- get_data ;;
  server_send code [Page d].

Definition handle_reset_left : io M unit :=
  Serial_println (Txt "[Reset Left] pressed") ;;
  modify_data (set_position_left (F64.to_float DEFAULT_POSITION_LEFT)) ;;
  EEPROM_put_commit ;;
  send_page 200.

Definition handle_reset_current : io M unit :=
  Serial_println (Txt "[Reset Current] pressed") ;;
  modify_data
    (set_position_current_previous
       (F64.to_float DEFAULT_POSITION_CURRENT_PREVIOUS)) ;;
  modify_data (set_position_current (F64.to_float DEFAULT_POSITION_CURRENT)) ;;
  EEPROM_put_commit ;;
  send_page 200.

Definition handle_reset_right : io M unit :=
  Serial_println (Txt "[Reset Right] pressed") ;;
  modify_data (set_position_right (F64.to_float DEFAULT_POSITION_RIGHT)) ;;
  EEPROM_put_commit ;;
  send_page 200.

Definition handle_move_left (rotations : F32.t) : io M unit :=
  Serial_print (Txt "[Move Left] pressed for '") ;;
  Serial_print (Flt rotations) ;;
  Serial_println (Txt "' rotations") ;;
  (* Move motor to the left with given number of rotations *)
  move_motor rotations ;;
  send_page 200.

Definition handle_move_right (rotations : F32.t) : io M unit :=
  Serial_print (Txt "[Move Right] pressed for '") ;;
  Serial_print (Flt rotations) ;;
  Serial_println (Txt "' rotations") ;;
  (* Move motor to the right with given number of rotations *)
  move_motor rotations ;;
  send_page 200.

Definition handle_set_left : io M unit :=
  Serial_println (Txt "[Set Left] pressed") ;;
  (* Update new 'left' threshold into EEPROM *)
  d <- get_data ;;
  modify_data (set_position_left (position_current d)) ;;
  EEPROM_put_commit ;;
  send_page 200.

Definition handle_set_right : io M unit :=
  Serial_println (Txt "[Set Right] pressed") ;;
  (* Update new 'right' threshold into EEPROM *)
  d <- get_data ;;
  modify_data (set_position_right (position_current d)) ;;
  EEPROM_put_commit ;;
  send_page 200.

Definition handle_move_total_left : io M unit :=
  Serial_println (Txt "[Move Total Left] pressed") ;;
  d <- get_data ;;
  (* First check if 'left' treshold is set *)
  if threshold_not_set (position_left d) DEFAULT_POSITION_LEFT then
    Serial_println (Txt "'left' treshold not set, thus not moving motor") ;;
    send_page 501
  else
    (* Move motor to the total left *)
    move_motor (F64.to_float DEFAULT_POSITION_LEFT) ;;
    send_page 200.

Definition handle_move_total_right : io M unit :=
  Serial_println (Txt "[Move Total Right] pressed") ;;
  d <- get_data ;;
  (* First check if 'right' treshold is set *)
  if threshold_not_set (position_right d) DEFAULT_POSITION_RIGHT then
    Serial_println (Txt "'right' treshold not set, thus not moving motor") ;;
    send_page 501
  else
    (* Move motor to the total right *)
    move_motor (F64.to_float DEFAULT_POSITION_RIGHT) ;;
    send_page 200.

Definition handle_stop_motor : io M unit :=
  Serial_println (Txt "[Stop Motor] pressed") ;;
  stop_and_reconcile true ;;
  send_page 200.

(** *** [handle_root]

    [authenticated] is the answer of [is_authenticated(0)] (the login
    cookie); [args] are the names of the form fields of the request, so that
    [server.hasArg(name)] is membership in [args].  The raw replies written
    with [server.sendContent] all start with the status line
    [HTTP/1.1 301 OK]; they are recorded as answers with status 301 and the
    header lines that follow. *)

Definition hasArg (args : list string) (name : string) : bool :=
  existsb (fun arg => String.eqb arg name) args.

Definition redirect_to_login : list item :=
  [Txt "Set-Cookie: eCurtains=0"; Eol; Txt "Location: /login"; Eol;
   Txt "Cache-Control: no-cache"; Eol; Eol].

Definition handle_logout : io M unit :=
  Serial_println (Txt "[Logout] pressed") ;;
  (* Reset Cookie and present login screen *)
  server_send 301 redirect_to_login.

Definition handle_settings : io M unit :=
  Serial_println (Txt "[Settings] pressed") ;;
  (* Present the 'Settings' screen *)
  server_send 301
    [Txt "Location: /settings"; Eol; Txt "Cache-Control: no-cache"; Eol; Eol].

Definition handle_root (authenticated : bool) (args : list string)
  : io M unit :=
  (* Check if you are authorized to see the web-interface *)
  if negb authenticated then
    Serial_println (Txt "Unauthorized to access Web-Interface") ;;
    (* Reset Cookie and present login screen *)
    server_send 301 redirect_to_login ;;
    server_send 200 [Txt "Unauthorized"]
  else
    (if hasArg args "logout" then handle_logout
     else if hasArg args "settings" then handle_settings
     else ret tt) ;;
    (if hasArg args "reset_left" then handle_reset_left
     else if hasArg args "reset_current" then handle_reset_current
     else if hasArg args "reset_right" then handle_reset_right
     else if hasArg args "left0.1" then handle_move_left (lit (-1) 1)
     else if hasArg args "left0.25" then handle_move_left (lit (-25) 2)
     else if hasArg args "left0.5" then handle_move_left (lit (-5) 1)
     else if hasArg args "left1" then handle_move_left (lit (-10) 1)
     else if hasArg args "left10" then handle_move_left (lit (-100) 1)
     else ret tt) ;;
    (if hasArg args "left100" then handle_move_left (lit (-1000) 1)
     else if hasArg args "stop_motor" then handle_stop_motor
     else if hasArg args "right0.1" then handle_move_right (lit 1 1)
     else if hasArg args "right0.25" then handle_move_right (lit 25 2)
     else if hasArg args "right0.5" then handle_move_right (lit 5 1)
     else if hasArg args "right1" then handle_move_right (lit 10 1)
     else if hasArg args "right10" then handle_move_right (lit 100 1)
     else ret tt) ;;
    if hasArg args "right100" then handle_move_right (lit 1000 1)
    else if hasArg args "set_left" then handle_set_left
    else if hasArg args "set_right" then handle_set_right
    else if hasArg args "move_total_left" then handle_move_total_left
    else if hasArg args "move_total_right" then handle_move_total_right
    else if hasArg args "stop_motor" then handle_stop_motor
    else send_page 200.

(** *** [loop]

    [server.handleClient()] serves at most one pending request per pass: a
    call of the API or a request for the root page. *)

Inductive request : Type :=
| Api (action value api : string)
| Root (authenticated : bool) (args : list string).

Definition handleClient (client : option request) : io M unit :=
  match client with
  | None => ret tt
  | Some (Api action value api) => handle_api action value api
  | Some (Root authenticated args) => handle_root authenticated args
  end.

(** The motor control of [loop], after [server.handleClient()]. *)
Definition loop_motor : io M unit :=
  (* Control movement of motor *)
  modify_stepper run ;;
  stepper <- get_stepper ;;
  (* If motor it not running then disable motor pin outputs *)
  if negb (isRunning stepper) then
    d <- get_data ;;
    (* Keep the motor cool *)
    if Z.eqb (stepper_motor_and_driver d) 0
    then modify_stepper disableOutputs
    else digitalWrite_MOTOR_PIN3 false
  else ret tt.

(** What the WiFi library answers during one pass of [loop].
    [WiFi_connected]: the watchdog at the end of [loop] does not fire (the
    device is an access point, [g_wifi_mode == 0], or [WiFi.status()] is
    [WL_CONNECTED]).  [WiFi_lost waits localIP]: it fires; [waits] counts
    the polls of [WiFi.status()] in the waiting loop of [wifi_reconnect]
    that find the link down, and [localIP] is the address
    [WiFi.localIP()] gives if the poll after the loop finds it up. *)
Inductive wifi_status : Type :=
| WiFi_connected
| WiFi_lost (waits : nat) (localIP : option string).

(** *** [wifi_reconnect] *)
Definition wifi_reconnect (waits : nat) (localIP : option string)
  : io M unit :=
  (* Control movement of motor *)
  modify_stepper run ;;
  (* Try to disconnect WiFi *)
  Serial_println (Txt "WiFi disconnected") ;;
  (* Starting WiFi again *)
  Serial_println (Txt "Starting WiFi again") ;;
  d <- get_data ;;
  Serial_print (Txt "Connecting to : '") ;;
  Serial_print (Txt (ssid d)) ;;
  Serial_println (Txt "'") ;;
  (* while (WiFi.status() != WL_CONNECTED && i < 31): one dot per poll *)
  Serial_write (repeat (Txt ".") (Nat.min waits 31)) ;;
  match localIP with
  | Some address =>
      Serial_println (Txt "") ;;
      Serial_print (Txt "Connected to  : '") ;;
      Serial_print (Txt (ssid d)) ;;
      Serial_println (Txt "'") ;;
      Serial_print (Txt "IP address    : ") ;;
      Serial_println (Txt address)
  | None => ret tt
  end.

(** The part of [loop] after [server.handleClient()]; nothing of it runs
    once a handler has called [ESP.restart()]. *)
Definition after_client (wifi : wifi_status) : io M unit :=
  fun w =>
    if restarted w then (tt, w)
    else
      ((* Control movement of motor *)
       loop_motor ;;
       (* Check if WiFi is still connected *)
       match wifi with
       | WiFi_connected => ret tt
       | WiFi_lost waits localIP => wifi_reconnect waits localIP
       end) w.

Definition loop (client : option request) (wifi : wifi_status)
  : io M unit :=
  (* Handle Client *)
  handleClient client ;;
  after_client wifi.

(** Several passes of [loop] while the WiFi link is up, one optional
    request per pass. *)
Fixpoint loops (clients : list (option request)) : io M unit :=
  match clients with
  | [] => ret tt
  | c :: rest => loop c WiFi_connected ;; loops rest
  end.

End Firmware.

(** ** A reference motor and string library, for running the model

    [sim] keeps the step counter and the target of AccelStepper.  Each [run]
    takes one step towards the target, [stop] halts at once, and [move]
    truncates its argument towards zero like the C++ conversion to [long]. *)

Record sim : Type := mk_sim {
  sim_currentPos : Z;
  sim_targetPos : Z;
  sim_acceleration : F32.t;
  sim_maxSpeed : F32.t;
  sim_outputs : bool
}.

Definition float_to_long (x : F32.t) : Z :=
  match x with
  | S754_finite s m e =>
      cond_Zopp s (match e with
                   | Zneg p => Z.shiftr (Zpos m) (Zpos p)
                   | _ => Z.shiftl (Zpos m) e
                   end)
  | _ => 0
  end.

Definition sim_run (m : sim) : sim :=
  mk_sim (sim_currentPos m + Z.sgn (sim_targetPos m - sim_currentPos m))
         (sim_targetPos m) (sim_acceleration m) (sim_maxSpeed m) (sim_outputs m).

#[export] Instance sim_AccelStepper : AccelStepper sim := {
  isRunning m := negb (Z.eqb (sim_targetPos m) (sim_currentPos m));
  currentPosition m := sim_currentPos m;
  setCurrentPosition p m :=
    mk_sim p p (sim_acceleration m) (sim_maxSpeed m) (sim_outputs m);
  move relative m :=
    mk_sim (sim_currentPos m) (sim_currentPos m + float_to_long relative)
           (sim_acceleration m) (sim_maxSpeed m) (sim_outputs m);
  stop m :=
    mk_sim (sim_currentPos m) (sim_currentPos m)
           (sim_acceleration m) (sim_maxSpeed m) (sim_outputs m);
  run := sim_run;
  setAcceleration a m :=
    mk_sim (sim_currentPos m) (sim_targetPos m) a (sim_maxSpeed m) (sim_outputs m);
  setMaxSpeed v m :=
    mk_sim (sim_currentPos m) (sim_targetPos m) (sim_acceleration m) v (sim_outputs m);
  enableOutputs m :=
    mk_sim (sim_currentPos m) (sim_targetPos m) (sim_acceleration m)
           (sim_maxSpeed m) true;
  disableOutputs m :=
    mk_sim (sim_currentPos m) (sim_targetPos m) (sim_acceleration m)
           (sim_maxSpeed m) false;
  currentPosition_setCurrentPosition := fun p m => eq_refl
}.

(** [atol] and [atof] on plain decimal text: an optional minus sign, digits
    and, for [atof], an optional fraction.  Conversion stops at the first
    character that does not fit; no digits at all give zero. *)
Definition digit_of (c : ascii) : option Z :=
  let n := Z.of_nat (nat_of_ascii c) in
  if ((48 <=? n) && (n <=? 57))%Z then Some (n - 48) else None.

Fixpoint read_digits (s : string) (acc : Z) (count : nat) : Z * nat * string :=
  match s with
  | String c rest =>
      match digit_of c with
      | Some dgt => read_digits rest (10 * acc + dgt) (S count)
      | None => (acc, count, s)
      end
  | EmptyString => (acc, count, s)
  end.

Definition read_sign (s : string) : bool * string :=
  match s with
  | String "-" rest => (true, rest)
  | _ => (false, s)
  end.

Definition atol (s : string) : Z :=
  let (neg, s1) := read_sign s in
  let '(n, _, _) := read_digits s1 0 0 in
  cond_Zopp neg n.

Definition atof (s : string) : F32.t :=
  let (neg, s1) := read_sign s in
  let '(n, _, s2) := read_digits s1 0 0 in
  let magnitude :=
    match s2 with
    | String "." s3 =>
        let '(n', k, _) := read_digits s3 n 0 in
        F64.to_float (F64.of_dec n' k)
    | _ => F64.to_float (F64.of_dec n 0)
    end in
  if neg then SFopp magnitude else magnitude.

#[export] Instance decimal_WString : WString := {
  toFloat := atof;
  toInt := atol
}.

(** A configured device: factory positions, the 28BYJ-48 motor, idle. *)
Definition example_settings : settings :=
  mk_settings "home" "secret" g_current_version g_default_host_name
    g_default_api_key 0
    (F64.to_float DEFAULT_POSITION_LEFT)
    (F64.to_float DEFAULT_POSITION_CURRENT_PREVIOUS)
    (F64.to_float DEFAULT_POSITION_CURRENT)
    (F64.to_float DEFAULT_POSITION_RIGHT)
    DEFAULT_LANGUAGE g_default_web_user g_default_web_password
    (F64.to_float MOTOR_ACCELERATION) (F64.to_float MOTOR_MAX_SPEED)
    (F32.of_Z STEPS_PER_REVOLUTION_28BYJ) 0.

Definition example_motor : sim :=
  mk_sim 0 0 (F64.to_float MOTOR_ACCELERATION) (F64.to_float MOTOR_MAX_SPEED)
    false.

Definition example_world : world sim :=
  mk_world example_settings (Stored example_settings) example_motor false
    [] [] false.

Definition example_key : string := g_default_api_key.

(** The same device at position 50.0. *)
Definition world_at_50 : world sim :=
  mk_world (set_position_current (F32.of_Z 50) example_settings)
    (Stored (set_position_current (F32.of_Z 50) example_settings))
    example_motor false [] [] false.

(** A Nema17 device (200 steps per revolution) whose last move started at
    10.0 and whose step counter reads 150. *)
Definition nema17_settings : settings :=
  mk_settings "home" "secret" g_current_version g_default_host_name
    g_default_api_key 0
    (F64.to_float DEFAULT_POSITION_LEFT) (F32.of_Z 10) (F32.of_Z 12)
    (F64.to_float DEFAULT_POSITION_RIGHT)
    DEFAULT_LANGUAGE g_default_web_user g_default_web_password
    (F64.to_float MOTOR_ACCELERATION) (F64.to_float MOTOR_MAX_SPEED)
    (F32.of_Z STEPS_PER_REVOLUTION_NEMA17) 1.

Definition world_stopping : world sim :=
  mk_world nema17_settings (Stored nema17_settings)
    (mk_sim 150 400 (F64.to_float MOTOR_ACCELERATION)
       (F64.to_float MOTOR_MAX_SPEED) true)
    true [] [] false.

Definition positions (d : settings) : F32.t * F32.t * F32.t * F32.t :=
  (position_left d, position_current_previous d, position_current d,
   position_right d).

(** The example device just after the API was asked to move 50 rotations:
    the motor is running. *)
Definition world_moving : world sim :=
  exec (handle_api "move_motor" "50" example_key) example_world.

(** ** Specification-side notions *)

(** The invariant of the position record: [left <= current <= right] and
    [left <= right], with the comparisons of the firmware's [float]s. *)
Definition position_invariant (d : settings) : Prop :=
  F32.le (position_left d) (position_current d) = true /\
  F32.le (position_current d) (position_right d) = true /\
  F32.le (position_left d) (position_right d) = true.

(** What the WiFi watchdog of a pass prints: nothing while the link is up,
    otherwise the report of [wifi_reconnect] with one dot per wait (at most
    31) and the address if the link came back. *)
Definition watchdog_console (d : settings) (wifi : wifi_status)
  : list item :=
  match wifi with
  | WiFi_connected => []
  | WiFi_lost waits localIP =>
      [Txt "WiFi disconnected"; Eol; Txt "Starting WiFi again"; Eol;
       Txt "Connecting to : '"; Txt (ssid d); Txt "'"; Eol]
      ++ repeat (Txt ".") (Nat.min waits 31)
      ++ match localIP with
         | Some address =>
             [Txt ""; Eol; Txt "Connected to  : '"; Txt (ssid d); Txt "'";
              Eol; Txt "IP address    : "; Txt address; Eol]
         | None => []
         end
  end.

Definition watchdog_fires (wifi : wifi_status) : bool :=
  match wifi with
  | WiFi_connected => false
  | WiFi_lost _ _ => true
  end.

(** The distance of the reconciliation, [raw_steps / steps_per_revolution]:
    the quotient of the step count and the steps per revolution, both taken
    exactly, rounded once to [double] and stored in a [float]. *)
Definition moved_rotations (raw : Z) (steps_per_revolution : F32.t)
  : F32.t :=
  F64.to_float (F64.div (F64.of_Z raw) (F64.of_float steps_per_revolution)).

(** [|moved| > epsilon]: [moved] lies above [epsilon] or below
    [- epsilon]. *)
Definition exceeds_epsilon (moved : F32.t) : bool :=
  F64.gt (F64.of_float moved) g_epsilon
  || F64.lt (F64.of_float moved) (SFopp g_epsilon).

(** The premise [left <= current <= right] on its own. *)
Definition within_thresholds (d : settings) : Prop :=
  F32.le (position_left d) (position_current d) = true /\
  F32.le (position_current d) (position_right d) = true.

(** What [move_motor] plans for an idle motor: the rotations it will
    perform and the settings it commits. *)
Definition planned_move (no_rotations : F32.t) (d : settings)
  : F32.t * settings :=
  let target := F32.add (position_current d) no_rotations in
  if F32.lt target (position_left d) then
    (F32.sub (position_left d) (position_current d),
     set_position_current (position_left d)
       (set_position_current_previous (position_current d) d))
  else if F32.gt target (position_right d) then
    (F32.sub (position_right d) (position_current d),
     set_position_current (position_right d)
       (set_position_current_previous (position_current d) d))
  else
    (no_rotations,
     set_position_current target
       (set_position_current_previous (position_current d) d)).

(** A key that orders the floats that are not NaN like [SFcompare] does. *)
Definition rank (x : spec_float) : Z * Z * Z :=
  match x with
  | S754_nan => (0, 0, 0)
  | S754_infinity true => (-2, 0, 0)
  | S754_infinity false => (2, 0, 0)
  | S754_zero _ => (0, 0, 0)
  | S754_finite true m e => (-1, - e, Zneg m)
  | S754_finite false m e => (1, e, Zpos m)
  end.

Definition lex_le (a b : Z * Z * Z) : Prop :=
  let '(a1, a2, a3) := a in
  let '(b1, b2, b3) := b in
  a1 < b1 \/ (a1 = b1 /\ (a2 < b2 \/ (a2 = b2 /\ a3 <= b3))).







(** ** The rest of the firmware: boot, erase and the settings forms *)

Definition set_ssid (v : string) (d : settings) : settings :=
  mk_settings v (password d) (version d) (hostname d) (apikey d)
    (apikey_set d) (position_left d) (position_current_previous d)
    (position_current d) (position_right d) (language d) (web_user d)
    (web_password d) (motor_acceleration d) (motor_max_speed d)
    (steps_per_revolution d) (stepper_motor_and_driver d).

Definition set_password (v : string) (d : settings) : settings :=
  mk_settings (ssid d) v (version d) (hostname d) (apikey d)
    (apikey_set d) (position_left d) (position_current_previous d)
    (position_current d) (position_right d) (language d) (web_user d)
    (web_password d) (motor_acceleration d) (motor_max_speed d)
    (steps_per_revolution d) (stepper_motor_and_driver d).

Definition set_version (v : F32.t) (d : settings) : settings :=
  mk_settings (ssid d) (password d) v (hostname d) (apikey d)
    (apikey_set d) (position_left d) (position_current_previous d)
    (position_current d) (position_right d) (language d) (web_user d)
    (web_password d) (motor_acceleration d) (motor_max_speed d)
    (steps_per_revolution d) (stepper_motor_and_driver d).

Definition set_web_user (v : string) (d : settings) : settings :=
  mk_settings (ssid d) (password d) (version d) (hostname d) (apikey d)
    (apikey_set d) (position_left d) (position_current_previous d)
    (position_current d) (position_right d) (language d) v
    (web_password d) (motor_acceleration d) (motor_max_speed d)
    (steps_per_revolution d) (stepper_motor_and_driver d).

Definition set_web_password (v : string) (d : settings) : settings :=
  mk_settings (ssid d) (password d) (version d) (hostname d) (apikey d)
    (apikey_set d) (position_left d) (position_current_previous d)
    (position_current d) (position_right d) (language d) (web_user d)
    v (motor_acceleration d) (motor_max_speed d)
    (steps_per_revolution d) (stepper_motor_and_driver d).

Definition set_steps_per_revolution (v : F32.t) (d : settings) : settings :=
  mk_settings (ssid d) (password d) (version d) (hostname d) (apikey d)
    (apikey_set d) (position_left d) (position_current_previous d)
    (position_current d) (position_right d) (language d) (web_user d)
    (web_password d) (motor_acceleration d) (motor_max_speed d)
    v (stepper_motor_and_driver d).

Definition set_stepper_motor_and_driver (v : Z) (d : settings) : settings :=
  mk_settings (ssid d) (password d) (version d) (hostname d) (apikey d)
    (apikey_set d) (position_left d) (position_current_previous d)
    (position_current d) (position_right d) (language d) (web_user d)
    (web_password d) (motor_acceleration d) (motor_max_speed d)
    (steps_per_revolution d) v.

(** The two-entry string tables the firmware indexes with
    [g_data.language] (0 = English, 1 = Dutch).  C++ leaves any other
    index undefined; [l_at] then answers the second entry. *)
Definition l_language_english : string * string := ("English", "Engels").
Definition l_language_dutch : string * string := ("Dutch", "Nederlands").
Definition l_28BYJ_ULN : string * string := ("28BYJ-48 + ULN", "28BYJ-48 + ULN").
Definition l_Nema17_A4988 : string * string :=
  ("Nema17 + A4988", "Nema17 + A4988").

Definition l_at (table : string * string) (language : Z) : string :=
  if Z.eqb language 0 then fst table else snd table.

(** The constructors of the AccelStepper library the firmware calls: the
    global default object and a fresh driver for either wiring. *)
Class AccelStepperNew (M : Type) : Type := {
  AccelStepper_default : M;
  AccelStepper_FULL4WIRE : M;
  AccelStepper_DRIVER : M
}.

(** The settings [EEPROM.get] reads: what was last committed, or the
    all-zero bytes of an erased block (empty strings, 0.0 and 0). *)
Definition zero_settings : settings :=
  mk_settings "" "" (S754_zero false) "" "" 0
    (S754_zero false) (S754_zero false) (S754_zero false) (S754_zero false)
    0 "" "" (S754_zero false) (S754_zero false) (S754_zero false) 0.

Definition EEPROM_get (e : eeprom_image) : settings :=
  match e with
  | Erased => zero_settings
  | Stored d => d
  end.

(** The member initialisers of the global [g_data]. *)
Definition initial_g_data : settings :=
  mk_settings "" "" (S754_zero false) "" "" 0
    (F64.to_float DEFAULT_POSITION_LEFT)
    (F64.to_float DEFAULT_POSITION_CURRENT_PREVIOUS)
    (F64.to_float DEFAULT_POSITION_CURRENT)
    (F64.to_float DEFAULT_POSITION_RIGHT)
    DEFAULT_LANGUAGE "" ""
    (F64.to_float MOTOR_ACCELERATION) (F64.to_float MOTOR_MAX_SPEED)
    (F32.of_Z STEPS_PER_REVOLUTION_28BYJ) 0.

Section Boot.

Context {M : Type} `{AccelStepper M} `{AccelStepperNew M} `{WString}.

(** The device as the globals are initialised at power-on or after
    [ESP.restart()], before [setup] runs; only the EEPROM survives. *)
Definition power_on (e : eeprom_image) : world M :=
  mk_world initial_g_data e AccelStepper_default false [] [] false.

(** *** [setup]: the EEPROM block

    The pin set-up of the LED, the SPIFFS check, the WiFi connection and
    the registration of the URL handlers that follow in [setup] belong to
    the board and the network and are left out. *)
Definition setup_EEPROM : io M unit :=
  (* Read current contents of EEPROM *)
  (fun w => (tt, mk_world (EEPROM_get (EEPROM w)) (EEPROM w)
                   (g_AccelStepper w) (MOTOR_PIN3_high w) (Serial w)
                   (sent w) (restarted w))) ;;
  Serial_println (Txt "") ;;
  Serial_println (Txt "") ;;
  Serial_println (Txt "Initializing") ;;
  Serial_println (Txt "") ;;
  d <- get_data ;;
  (* If current major version differs from EEPROM, write back new default
     values *)
  (if negb (Z.eqb (float_to_long (version d))
                  (float_to_long g_current_version))
   then
     Serial_print (Txt "Major version in EEPROM ('") ;;
     Serial_print (Flt (version d)) ;;
     Serial_print (Txt "') differs with this current version ('") ;;
     Serial_print (Flt g_current_version) ;;
     Serial_println (Txt "')") ;;
     Serial_println (Txt "Setting default values in EEPROM.") ;;
     Serial_println (Txt "") ;;
     (* Write back new default values *)
     modify_data (set_ssid "") ;;
     modify_data (set_password "") ;;
     modify_data (set_hostname g_default_host_name) ;;
     modify_data (set_version g_current_version) ;;
     modify_data (set_apikey g_default_api_key) ;;
     modify_data (set_apikey_set 0) ;;
     modify_data (set_web_user g_default_web_user) ;;
     modify_data (set_web_password g_default_web_password) ;;
     modify_data (set_position_left (F64.to_float DEFAULT_POSITION_LEFT)) ;;
     modify_data
       (set_position_current_previous
          (F64.to_float DEFAULT_POSITION_CURRENT_PREVIOUS)) ;;
     modify_data (set_position_current (F64.to_float DEFAULT_POSITION_CURRENT)) ;;
     modify_data (set_position_right (F64.to_float DEFAULT_POSITION_RIGHT)) ;;
     modify_data (set_language DEFAULT_LANGUAGE) ;;
     modify_data (set_motor_acceleration (F64.to_float MOTOR_ACCELERATION)) ;;
     modify_data (set_motor_max_speed (F64.to_float MOTOR_MAX_SPEED))
   else ret tt) ;;
  (* Set current version *)
  modify_data (set_version g_current_version) ;;
  (* Store values into EEPROM *)
  EEPROM_put_commit ;;
  d <- get_data ;;
  (* Display current set hostname *)
  Serial_print (Txt "EEPROM Hostname          : ") ;;
  Serial_println (Txt (hostname d)) ;;
  (* Display current 'eCurtains' version *)
  Serial_print (Txt "EEPROM eCurtains version : ") ;;
  Serial_println (Flt (version d)) ;;
  (* Display current Web-Page Language Setting *)
  Serial_print (Txt "EEPROM Language          : ") ;;
  (if Z.eqb (language d) 0
   then Serial_println (Txt (l_at l_language_english (language d)))
   else Serial_println (Txt (l_at l_language_dutch (language d)))) ;;
  (* Display current API key *)
  Serial_print (Txt "EEPROM API key           : ") ;;
  Serial_println (Txt (apikey d)) ;;
  Serial_print (Txt "EEPROM API key set       : ") ;;
  Serial_println (Int (apikey_set d)) ;;
  Serial_println (Txt "") ;;
  (* Display set web-user & web-password *)
  Serial_print (Txt "EEPROM Web User          : ") ;;
  Serial_println (Txt (web_user d)) ;;
  Serial_print (Txt "EEPROM Web Password      : ") ;;
  Serial_println (Txt (web_password d)) ;;
  Serial_println (Txt "") ;;
  Serial_print (Txt "EEPROM Motor + driver    : ") ;;
  (if Z.eqb (stepper_motor_and_driver d) 0
   then Serial_println (Txt (l_at l_28BYJ_ULN (language d)))
   else Serial_println (Txt (l_at l_Nema17_A4988 (language d)))) ;;
  Serial_print (Txt "EEPROM Steps/Revolution  : ") ;;
  Serial_println (Flt (steps_per_revolution d)) ;;
  Serial_print (Txt "EEPROM Acceleration      : ") ;;
  Serial_println (Flt (motor_acceleration d)) ;;
  Serial_print (Txt "EEPROM Max Speed         : ") ;;
  Serial_println (Flt (motor_max_speed d)) ;;
  Serial_println (Txt "") ;;
  (* Display current set positions *)
  Serial_print (Txt "EEPROM Position (left)   : ") ;;
  Serial_println (Flt (position_left d)) ;;
  Serial_print (Txt "EEPROM Position (prv)    : ") ;;
  Serial_println (Flt (position_current_previous d)) ;;
  Serial_print (Txt "EEPROM Position (cur)    : ") ;;
  Serial_println (Flt (position_current d)) ;;
  Serial_print (Txt "EEPROM Position (right)  : ") ;;
  Serial_println (Flt (position_right d)) ;;
  Serial_println (Txt "") ;;
  (* Display stored SSID & password *)
  Serial_print (Txt "EEPROM ssid              : ") ;;
  Serial_println (Txt (ssid d)) ;;
  Serial_print (Txt "EEPROM password          : ") ;;
  Serial_println (Txt (password d)) ;;
  Serial_println (Txt "").

(** *** [setup]: the AccelStepper block at its end.  The reset pin of the
    A4988 ([MOTOR_PIN4]) is not part of the state. *)
Definition setup_AccelStepper : io M unit :=
  d <- get_data ;;
  (* Initialize AccelStepper library *)
  (if Z.eqb (stepper_motor_and_driver d) 0
   then
     (* 28BYJ-48 + ULN *)
     modify_stepper (fun _ => AccelStepper_FULL4WIRE) ;;
     Serial_write [Eol] ;;
     Serial_println (Txt "Initializing AccelStepper for 28BYJ-48 + ULN")
   else
     (* Nema17 + A4988 *)
     modify_stepper (fun _ => AccelStepper_DRIVER) ;;
     Serial_write [Eol] ;;
     Serial_println (Txt "Initializing AccelStepper for Nema17 + A4988")) ;;
  (* Set acceleration *)
  modify_stepper (setAcceleration (motor_acceleration d)) ;;
  (* Set maximum motor speed *)
  modify_stepper (setMaxSpeed (motor_max_speed d)) ;;
  Serial_println (Txt "") ;;
  (* Start HTTP server *)
  Serial_println (Txt "HTTP server started").

Definition setup : io M unit :=
  setup_EEPROM ;;
  setup_AccelStepper.

(** What the device is after the restart that follows the state [w]. *)
Definition reboot (w : world M) : world M :=
  exec setup (power_on (EEPROM w)).

(** *** [handle_erase] *)
Definition handle_erase : io M unit :=
  server_send 200 [Txt "OK"] ;;
  Serial_println (Txt "Erase complete EEPROM") ;;
  EEPROM_clear_commit ;;
  (* Restart board *)
  ESP_restart.

(** *** [handle_wifi_ajax], with the fields of the posted form *)
Definition handle_wifi_ajax (form ssidArg passArg : string) : io M unit :=
  if String.eqb form "wifi" then
    modify_data (set_ssid ssidArg) ;;
    modify_data (set_password passArg) ;;
    (* Update values in EEPROM *)
    EEPROM_put_commit ;;
    server_send 200 [Txt "OK"] ;;
    ESP_restart
  else ret tt.

(** *** [handle_settings_ajax], with the fields of the posted form.  The
    field [stepsperrevolution] is read but never used. *)
Definition handle_settings_ajax
    (form user_arg pass_arg api_arg host_arg lang_arg type_arg rev_arg
       acc_arg speed_arg : string) : io M unit :=
  if String.eqb form "settings" then
    d <- get_data ;;
    (* Check if new web-user of web-password has been set *)
    let login_again :=
      negb (String.eqb (web_user d) user_arg)
      || negb (String.eqb (web_password d) pass_arg) in
    (* Set new Web User and Web Password *)
    modify_data (set_web_user user_arg) ;;
    modify_data (set_web_password pass_arg) ;;
    modify_data (set_hostname host_arg) ;;
    (* Set new API key *)
    modify_data (set_apikey api_arg) ;;
    (* Set new language *)
    (if String.eqb lang_arg (l_at l_language_english (language d))
     then modify_data (set_language 0)
     else modify_data (set_language 1)) ;;
    d <- get_data ;;
    (* Set new 'Stepper Motor & Driver', 'Steps Per Revolution,
       'Motor Acceleration' and 'Max Speed' *)
    (if String.eqb type_arg (l_at l_28BYJ_ULN (language d))
     then
       modify_data (set_stepper_motor_and_driver 0) ;;
       modify_data
         (set_steps_per_revolution (F32.of_Z STEPS_PER_REVOLUTION_28BYJ))
     else
       modify_data (set_stepper_motor_and_driver 1) ;;
       modify_data
         (set_steps_per_revolution (F32.of_Z STEPS_PER_REVOLUTION_NEMA17))) ;;
    modify_data (set_motor_acceleration (toFloat acc_arg)) ;;
    modify_data (set_motor_max_speed (toFloat speed_arg)) ;;
    d <- get_data ;;
    (* Initialize AccelStepper library *)
    (if Z.eqb (stepper_motor_and_driver d) 0
     then
       (* 28BYJ-48 + ULN *)
       modify_stepper (fun _ => AccelStepper_FULL4WIRE) ;;
       Serial_println (Txt "Initializing AccelStepper for 28BYJ-48 + ULN") ;;
       Serial_write [Eol]
     else
       (* Nema17 + A4988 *)
       modify_stepper (fun _ => AccelStepper_DRIVER) ;;
       Serial_println (Txt "Initializing AccelStepper for Nema17 + A4988") ;;
       Serial_write [Eol]) ;;
    (* Set acceleration *)
    modify_stepper (setAcceleration (motor_acceleration d)) ;;
    (* Set maximum motor speed *)
    modify_stepper (setMaxSpeed (motor_max_speed d)) ;;
    (* Update values in EEPROM *)
    EEPROM_put_commit ;;
    Serial_write
      [Txt "New webuser-name='"; Txt (web_user d);
       Txt "', new webuser-password='"; Txt (web_password d); Txt "'"; Eol] ;;
    (* Force login again in case web-user or web-password is changed *)
    if login_again then
      (* Reset Cookie and present login screen again *)
      server_send 301 redirect_to_login
    (* Otherwise present main Web-Interface again *)
    else
      server_send 301
        [Txt "Location: /"; Eol; Txt "Cache-Control: no-cache"; Eol; Eol]
  else ret tt.

(** One request of any kind the server routes: the API, the root page, or
    one of the three forms above. *)
Inductive any_request : Type :=
| Served (r : request)
| Erase
| Wifi_form (form ssidArg passArg : string)
| Settings_form
    (form user_arg pass_arg api_arg host_arg lang_arg type_arg rev_arg
       acc_arg speed_arg : string).

Definition serve (r : any_request) : io M unit :=
  match r with
  | Served r => handleClient (Some r)
  | Erase => handle_erase
  | Wifi_form form ssidArg passArg => handle_wifi_ajax form ssidArg passArg
  | Settings_form form user_arg pass_arg api_arg host_arg lang_arg type_arg
      rev_arg acc_arg speed_arg =>
      handle_settings_ajax form user_arg pass_arg api_arg host_arg lang_arg
        type_arg rev_arg acc_arg speed_arg
  end.

(** [loop] with the whole routing table: a pass serves at most one
    request of any kind and goes on like [loop]. *)
Definition pass (client : option any_request) (wifi : wifi_status)
  : io M unit :=
  match client with
  | None => ret tt
  | Some r => serve r
  end ;;
  after_client wifi.

(** The device over its whole life: it runs the passes one by one, each
    with the request it serves and the state of the WiFi link, and when a
    handler has called [ESP.restart()] it starts again from [setup] with
    what the EEPROM holds. *)
Fixpoint device (clients : list (option any_request * wifi_status))
    (w : world M) : world M :=
  match clients with
  | [] => w
  | (c, wifi) :: rest =>
      let w' := exec (pass c wifi) w in
      device rest (if restarted w' then reboot w' else w')
  end.

(** A program keeps a property of the device. *)
Definition keeps {A} (Q : world M -> Prop) (c : io M A) : Prop :=
  forall w, Q w -> Q (snd (c w)).

End Boot.

(** The actions [handle_api] knows once the key has been checked. *)
Definition known_actions : list string :=
  ["reboot"; "reset"; "set_host"; "set_language"; "reset_left";
   "reset_current"; "reset_right"; "set_left"; "move_motor"; "set_right";
   "move_total_left"; "move_total_right"; "stop_motor"; "motor_acceleration";
   "motor_max_speed"].

(** What two runs leave behind apart from what was printed and answered. *)
Definition same_device {M} (w1 w2 : world M) : Prop :=
  g_data w1 = g_data w2 /\ EEPROM w1 = EEPROM w2 /\
  g_AccelStepper w1 = g_AccelStepper w2 /\
  MOTOR_PIN3_high w1 = MOTOR_PIN3_high w2 /\
  restarted w1 = restarted w2.

(** *** Where C++ defines what the handlers do

    The texts of the settings record are [char] arrays of [LENGTH_.. + 1]
    bytes filled with [strcpy], and [handle_api] builds its messages with
    [sprintf] in a [char buffer[256]].  The model keeps texts as strings of
    any length; it describes the firmware for the requests whose texts fit,
    which [texts_fit] decides. *)
Definition LENGTH_SSID : Z := 32.
Definition LENGTH_PASSWORD : Z := 64.
Definition LENGTH_HOSTNAME : Z := 15.
Definition LENGTH_WEB_USER : Z := 64.
Definition LENGTH_WEB_PASSWORD : Z := 64.

(** [strcpy( field, v )] into [char field[len + 1]]. *)
Definition fits (v : string) (len : Z) : bool :=
  (Z.of_nat (String.length v) <=? len)%Z.

Definition nl : string := String (ascii_of_nat 10) "".

(** [sprintf( buffer, .. )] into [char buffer[256]]: the text and its
    closing NUL byte. *)
Definition buffer_fits (pieces : list string) : bool :=
  (Z.of_nat (String.length (String.concat "" pieces)) <? 256)%Z.

(** The two messages of [handle_api] that repeat what was sent, and the
    fields it copies; the message about a key that is too long is shorter
    than the one about a key that is not valid. *)
Definition texts_fit (r : any_request) : bool :=
  match r with
  | Served (Api action value api) =>
      buffer_fits
        [nl; "Webserver API called with parameters (action='"; action;
         "', value='"; value; "', api='"; api; "')"; nl; nl]
      && buffer_fits
           ["NOK (you are not authorized to perform an action without a valid API key, provided api-key '";
            api; "')"]
      && (negb (String.eqb action "set_api") || fits value LENGTH_API_KEY)
      && (negb (String.eqb action "set_host") || fits value LENGTH_HOSTNAME)
  | Served (Root _ _) => true
  | Erase => true
  | Wifi_form form ssidArg passArg =>
      negb (String.eqb form "wifi")
      || fits ssidArg LENGTH_SSID && fits passArg LENGTH_PASSWORD
  | Settings_form form user_arg pass_arg api_arg host_arg _ _ _ _ _ =>
      negb (String.eqb form "settings")
      || fits user_arg LENGTH_WEB_USER && fits pass_arg LENGTH_WEB_PASSWORD
         && fits api_arg LENGTH_API_KEY && fits host_arg LENGTH_HOSTNAME
  end.

Definition all_fit (clients : list (option any_request * wifi_status))
  : bool :=
  forallb (fun c => match fst c with
                    | Some r => texts_fit r
                    | None => true
                    end) clients.

(** The language indexes the two-entry string tables; C++ leaves any other
    index undefined. *)
Definition language_ok (d : settings) : Prop :=
  language d = 0 \/ language d = 1.

(** The steps per revolution are those of the selected motor. *)
Definition steps_match_motor (d : settings) : Prop :=
  steps_per_revolution d =
    F32.of_Z (if Z.eqb (stepper_motor_and_driver d) 0
              then STEPS_PER_REVOLUTION_28BYJ
              else STEPS_PER_REVOLUTION_NEMA17).

(** The settings the firmware never changes outside [setup] and the two
    forms. *)
Definition form_fields (d : settings)
  : string * string * F32.t * string * string * F32.t * Z :=
  (ssid d, password d, version d, web_user d, web_password d,
   steps_per_revolution d, stepper_motor_and_driver d).

(** The EEPROM holds the settings in memory, or it has just been erased and
    the board is restarting. *)
Definition persisted {M} (w : world M) : Prop :=
  version (g_data w) = g_current_version /\
  (EEPROM w = Stored (g_data w) \/
   (EEPROM w = Erased /\ restarted w = true)).

(** The requests that can write the left, respectively the right threshold:
    the two calibration actions of the API and the two buttons of the web
    interface. *)
Definition may_set_left (r : any_request) : bool :=
  match r with
  | Served (Api action _ _) =>
      String.eqb action "set_left" || String.eqb action "reset_left"
  | Served (Root _ args) => hasArg args "set_left" || hasArg args "reset_left"
  | _ => false
  end.

Definition may_set_right (r : any_request) : bool :=
  match r with
  | Served (Api action _ _) =>
      String.eqb action "set_right" || String.eqb action "reset_right"
  | Served (Root _ args) =>
      hasArg args "set_right" || hasArg args "reset_right"
  | _ => false
  end.

(** The requests that erase the EEPROM and restart: [/erase], and the
    action [reset] of the API with value [true]. *)
Definition is_erase (r : any_request) : bool :=
  match r with
  | Erase => true
  | Served (Api action value _) =>
      String.eqb action "reset" && String.eqb value "true"
  | _ => false
  end.

(** The two forms, and the settings form alone. *)
Definition is_form (r : any_request) : bool :=
  match r with
  | Wifi_form _ _ _ => true
  | Settings_form _ _ _ _ _ _ _ _ _ _ => true
  | _ => false
  end.

Definition is_settings_form (r : any_request) : bool :=
  match r with
  | Settings_form _ _ _ _ _ _ _ _ _ _ => true
  | _ => false
  end.

(** No pass serves a request of the kind [p]. *)
Definition none_of (p : any_request -> bool)
    (clients : list (option any_request * wifi_status)) : bool :=
  forallb (fun c => match fst c with
                    | Some r => negb (p r)
                    | None => true
                    end) clients.

(** The EEPROM holds the settings in memory. *)
Definition stored {M} (w : world M) : Prop :=
  version (g_data w) = g_current_version /\
  EEPROM w = Stored (g_data w).

(** What a request leaves when it finds the EEPROM in step with the
    memory: the two still agree, unless the request has erased the EEPROM,
    and then the board is restarting. *)
Definition stored_unless (erasing : bool) {M} (w : world M) : Prop :=
  persisted w /\ (erasing = false -> stored w).

(** A float that is neither a NaN nor an infinity. *)
Definition is_finite (x : F32.t) : bool :=
  match x with
  | S754_zero _ | S754_finite _ _ _ => true
  | _ => false
  end.

(** What [setup] leaves in memory after an erase: the defaults it writes,
    around the zeroed steps per revolution and motor type it keeps. *)
Definition settings_after_erase : settings :=
  mk_settings "" "" g_current_version g_default_host_name g_default_api_key 0
    (F64.to_float DEFAULT_POSITION_LEFT)
    (F64.to_float DEFAULT_POSITION_CURRENT_PREVIOUS)
    (F64.to_float DEFAULT_POSITION_CURRENT)
    (F64.to_float DEFAULT_POSITION_RIGHT)
    DEFAULT_LANGUAGE g_default_web_user g_default_web_password
    (F64.to_float MOTOR_ACCELERATION) (F64.to_float MOTOR_MAX_SPEED)
    (S754_zero false) 0.

#[export] Instance sim_AccelStepperNew : AccelStepperNew sim := {
  AccelStepper_default := mk_sim 0 0 (S754_zero false) (S754_zero false) false;
  AccelStepper_FULL4WIRE :=
    mk_sim 0 0 (S754_zero false) (S754_zero false) false;
  AccelStepper_DRIVER := mk_sim 0 0 (S754_zero false) (S754_zero false) false
}.


(** ** Order facts about IEEE comparison *)

Lemma SFcompare_antisym (x y : spec_float) :
  SFcompare y x = option_map CompOpp (SFcompare x y).
Proof.
  destruct x as [[]|[]| |[] mx ex], y as [[]|[]| |[] my ey]; try reflexivity;
    cbn [SFcompare option_map]; f_equal;
    rewrite (Z.compare_antisym ex ey);
    destruct (ex ?= ey)%Z; cbn [CompOpp]; try reflexivity;
    change (Pos.compare_cont Eq my mx) with (Pos.compare my mx);
    change (Pos.compare_cont Eq mx my) with (Pos.compare mx my);
    rewrite (Pos.compare_antisym mx my);
    destruct (mx ?= my)%positive; reflexivity.
Qed.

Lemma SFcompare_refl (x : spec_float) :
  F32.is_nan x = false -> SFcompare x x = Some Eq.
Proof.
  destruct x as [[]|[]| |[] mx ex]; cbn [SFcompare F32.is_nan];
    try reflexivity; try discriminate;
    intros _; rewrite Z.compare_refl;
    change (Pos.compare_cont Eq mx mx) with (Pos.compare mx mx);
    rewrite Pos.compare_refl; reflexivity.
Qed.

Lemma le_not_nan (x y : F32.t) :
  F32.le x y = true -> F32.is_nan x = false /\ F32.is_nan y = false.
Proof.
  unfold F32.le, SFleb.
  destruct x as [[]|[]| |[] mx ex], y as [[]|[]| |[] my ey]; cbn;
    intros; try discriminate; split; reflexivity.
Qed.

Lemma le_refl (x : F32.t) : F32.is_nan x = false -> F32.le x x = true.
Proof.
  intros Hx. unfold F32.le, SFleb. rewrite (SFcompare_refl x Hx). reflexivity.
Qed.

Ltac rank_case :=
  split;
  [ intros; repeat split; try reflexivity; try discriminate; lia
  | intros (? & ? & ?); try discriminate; try reflexivity; lia ].

Lemma le_rank (x y : F32.t) :
  F32.le x y = true <->
  F32.is_nan x = false /\ F32.is_nan y = false /\ lex_le (rank x) (rank y).
Proof.
  unfold F32.le, SFleb.
  destruct x as [[]|[]| |[] mx ex], y as [[]|[]| |[] my ey];
    cbn [SFcompare F32.is_nan rank lex_le]; try rank_case.
  all: change (Pos.compare_cont Eq mx my) with (Pos.compare mx my).
  all: destruct (Z.compare_spec ex ey); destruct (Pos.compare_spec mx my);
    cbn [CompOpp]; rank_case.
Qed.

Lemma le_trans (x y z : F32.t) :
  F32.le x y = true -> F32.le y z = true -> F32.le x z = true.
Proof.
  rewrite !le_rank. intros (Hx & Hy & Hxy) (_ & Hz & Hyz).
  repeat split; trivial.
  destruct (rank x) as [[a1 a2] a3], (rank y) as [[b1 b2] b3],
    (rank z) as [[c1 c2] c3].
  cbn [lex_le] in *. lia.
Qed.

Lemma lt_false_le (x y : F32.t) :
  F32.is_nan x = false -> F32.is_nan y = false ->
  F32.lt x y = false -> F32.le y x = true.
Proof.
  unfold F32.lt, F32.le, SFltb, SFleb. intros Hx Hy.
  rewrite (SFcompare_antisym x y).
  destruct x as [[]|[]| |[] mx ex], y as [[]|[]| |[] my ey]; try discriminate;
    cbn [SFcompare option_map CompOpp]; try reflexivity; try discriminate;
    try (destruct (ex ?= ey)%Z; cbn [CompOpp];
         try reflexivity; try discriminate;
         destruct (Pos.compare_cont Eq mx my); cbn [CompOpp];
         try reflexivity; try discriminate).
Qed.

Lemma gt_false_le (x y : F32.t) :
  F32.is_nan x = false -> F32.is_nan y = false ->
  F32.gt x y = false -> F32.le x y = true.
Proof. intros Hx Hy. unfold F32.gt. apply lt_false_le; assumption. Qed.

Lemma within_thresholds_invariant (d : settings) :
  within_thresholds d -> position_invariant d.
Proof.
  intros [Hlc Hcr]. repeat split; trivial. exact (le_trans _ _ _ Hlc Hcr).
Qed.

(** ** Exact [double] arithmetic

    The stop handlers divide the step counter by
    [g_data.steps_per_revolution * 1.0] and test the quotient with [fabs].
    For every IEEE [float] the product is the promoted [float] itself, and
    the [fabs] test is the two-sided comparison. *)

Section ExactDouble.

Local Open Scope Z_scope.

Lemma digits2_pos_iter_xO (m d : positive) :
  digits2_pos (Pos.iter xO m d) = (digits2_pos m + d)%positive.
Proof.
  induction d as [|d IH] using Pos.peano_ind.
  - cbn. rewrite Pos.add_1_r. reflexivity.
  - rewrite Pos.iter_succ. cbn [digits2_pos]. rewrite IH.
    rewrite Pos.add_succ_r. reflexivity.
Qed.

(** A mantissa of 53 bits needs no rounding. *)
Lemma binary_round_aux_canonical (sx : bool) (M : positive) (E : Z) :
  Zpos (digits2_pos M) = 53 -> -1074 <= E <= 971 ->
  binary_round_aux 53 1024 sx (Zpos M) E loc_Exact = S754_finite sx M E.
Proof.
  intros Hd HE.
  unfold binary_round_aux, shr_fexp, fexp, emin. cbn [Zdigits2].
  rewrite Hd.
  replace (Z.max (53 + E - 53) (3 - 1024 - 53)) with E by lia.
  rewrite Z.sub_diag.
  cbn [shr shr_record_of_loc shr_m loc_of_shr_record round_nearest_even
       Zdigits2].
  rewrite Hd.
  replace (Z.max (53 + E - 53) (3 - 1024 - 53)) with E by lia.
  rewrite Z.sub_diag. cbn [shr shr_m].
  replace (E <=? 1024 - 53) with true by (symmetry; apply Z.leb_le; lia).
  reflexivity.
Qed.

(** Nor does the same mantissa followed by 52 zero bits. *)
Lemma binary_round_aux_shifted (sx : bool) (M : positive) (E : Z) :
  Zpos (digits2_pos M) = 53 -> -1074 <= E <= 971 ->
  binary_round_aux 53 1024 sx (Zpos (Pos.iter xO M 52)) (E + -52) loc_Exact
  = S754_finite sx M E.
Proof.
  intros Hd HE.
  unfold binary_round_aux, shr_fexp, fexp, emin. cbn [Zdigits2].
  rewrite digits2_pos_iter_xO, Pos2Z.inj_add, Hd.
  replace (Z.max (53 + 52 + (E + -52) - 53) (3 - 1024 - 53)) with E by lia.
  replace (E - (E + -52)) with 52 by lia.
  cbn [shr shr_record_of_loc]. cbn [Pos.iter].
  cbn [iter_pos shr_1 orb].
  cbn [shr_m loc_of_shr_record round_nearest_even Zdigits2].
  rewrite Hd.
  replace (E + -52 + 52) with E by lia.
  replace (Z.max (53 + E - 53) (3 - 1024 - 53)) with E by lia.
  rewrite Z.sub_diag. cbn [shr shr_m shr_record_of_loc].
  replace (E <=? 1024 - 53) with true by (symmetry; apply Z.leb_le; lia).
  reflexivity.
Qed.

(** The promotion of a [float] to [double] is exact: the mantissa is
    shifted to 53 bits. *)
Lemma of_float_finite (s : bool) (m : positive) (e : Z) :
  valid_binary F32.prec F32.emax (S754_finite s m e) = true ->
  exists M E,
    F64.of_float (S754_finite s m e) = S754_finite s M E /\
    Zpos (digits2_pos M) = 53 /\ -1074 <= E <= 971.
Proof.
  unfold valid_binary, bounded, canonical_mantissa, fexp, emin,
    F32.prec, F32.emax.
  intros Hv. apply andb_true_iff in Hv as [Hc Hb].
  apply Z.eqb_eq in Hc. apply Z.leb_le in Hb.
  pose proof (Pos2Z.is_pos (digits2_pos m)) as Hpos.
  set (dg := Zpos (digits2_pos m)) in *.
  assert (Hdg : dg <= 24) by lia.
  assert (He : -149 <= e) by lia.
  assert (Hshift : exists d, dg + e - 53 - e = Zneg d /\ Zpos d = 53 - dg).
  { exists (Z.to_pos (53 - dg)). split.
    - replace (dg + e - 53 - e) with (- (53 - dg)) by lia.
      destruct (53 - dg) eqn:E; first [lia | reflexivity].
    - rewrite Z2Pos.id by lia. reflexivity. }
  destruct Hshift as (d & Hneg & Hd).
  exists (Pos.iter xO m d), (dg + e - 53).
  assert (Hdigits : Zpos (digits2_pos (Pos.iter xO m d)) = 53).
  { rewrite digits2_pos_iter_xO, Pos2Z.inj_add. fold dg. lia. }
  split; [|split; [exact Hdigits | lia]].
  unfold F64.of_float, F64.prec, F64.emax.
  assert (Hround : forall sx,
             binary_round 53 1024 sx m e
             = S754_finite sx (Pos.iter xO m d) (dg + e - 53)).
  { intros sx. unfold binary_round, shl_align, fexp, emin. fold dg.
    replace (Z.max (dg + e - 53) (3 - 1024 - 53)) with (dg + e - 53) by lia.
    rewrite Hneg.
    apply binary_round_aux_canonical; [exact Hdigits | lia]. }
  destruct s; cbn [cond_Zopp Z.opp binary_normalize]; apply Hround.
Qed.

(** Multiplying a promoted [float] by the [double] 1.0 changes nothing. *)
Lemma of_float_times_one (x : F32.t) :
  valid_binary F32.prec F32.emax x = true ->
  F64.mul (F64.of_float x) (F64.of_Z2 1 0) = F64.of_float x.
Proof.
  intros Hv.
  change (F64.of_Z2 1 0) with (S754_finite false 4503599627370496 (-52)).
  destruct x as [s | s | | s m e]; try (destruct s; reflexivity).
  - reflexivity.
  - destruct (of_float_finite s m e Hv) as (M & E & -> & Hd & HE).
    unfold F64.mul, SFmul, F64.prec, F64.emax.
    replace (M * 4503599627370496)%positive with (Pos.iter xO M 52).
    + rewrite xorb_false_r. apply binary_round_aux_shifted; assumption.
    + cbn [Pos.iter]. rewrite !Pos.mul_xO_r, Pos.mul_1_r. reflexivity.
Qed.

(** [fabs (y) > eps] is [y > eps] or [y < - eps], for a positive [eps]. *)
Lemma fabs_gt_positive (me : positive) (ee : Z) (y : F64.t) :
  let eps := S754_finite false me ee in
  SFltb eps (SFabs y) = SFltb eps y || SFltb y (SFopp eps).
Proof.
  cbv zeta. unfold SFltb.
  destruct y as [[]|[]| |[] m e]; try reflexivity;
    cbn [SFabs SFopp SFcompare negb].
  - rewrite (Z.compare_antisym e ee).
    destruct (e ?= ee); cbn [CompOpp orb]; try reflexivity.
    change (Pos.compare_cont Eq me m) with (Pos.compare me m).
    change (Pos.compare_cont Eq m me) with (Pos.compare m me).
    rewrite (Pos.compare_antisym m me).
    destruct (m ?= me)%positive; reflexivity.
  - destruct (ee ?= e); try reflexivity.
    destruct (Pos.compare_cont Eq me m); reflexivity.
Qed.

Lemma g_epsilon_positive :
  exists me ee, g_epsilon = S754_finite false me ee.
Proof. eexists. eexists. vm_compute. reflexivity. Qed.

Lemma motor_even_moved_spec (moved : F32.t) :
  motor_even_moved moved = exceeds_epsilon moved.
Proof.
  unfold motor_even_moved, exceeds_epsilon, F64.gt, F64.lt, F64.fabs.
  destruct g_epsilon_positive as (me & ee & ->).
  apply fabs_gt_positive.
Qed.

Lemma positions_moved_of_spec (raw : Z) (d : settings) :
  valid_binary F32.prec F32.emax (steps_per_revolution d) = true ->
  positions_moved_of raw d = moved_rotations raw (steps_per_revolution d).
Proof.
  intros Hv. unfold positions_moved_of, moved_rotations.
  rewrite of_float_times_one by exact Hv. reflexivity.
Qed.

End ExactDouble.

(** ** Running the state monad in proofs *)

Ltac run_io :=
  cbv beta iota zeta delta
    [bind ret exec get_data modify_data EEPROM_put_commit
     EEPROM_clear_commit get_stepper modify_stepper digitalWrite_MOTOR_PIN3
     Serial_write Serial_print Serial_println server_send ESP_restart
     send_page fst snd g_data EEPROM g_AccelStepper MOTOR_PIN3_high Serial
     sent restarted andb orb negb].

(** Decide the comparisons between two literal strings; the comparisons
    that involve a variable are kept as they are. *)
Ltac eval_tests :=
  repeat match goal with
  | |- context [String.eqb ?a ?b] =>
      lazymatch a with
      | String _ _ => fail
      | EmptyString => fail
      | _ => idtac
      end;
      let t := fresh "test" in set (t := String.eqb a b)
  end;
  cbv beta iota delta [String.eqb Ascii.eqb Bool.eqb andb orb negb];
  repeat match goal with t := String.eqb _ _ |- _ => subst t end.

(** Name the final state of the run in the goal, so that the program is
    evaluated once. *)
Ltac isolate_run :=
  match goal with
  | |- context [exec ?c ?w] =>
      let w' := fresh "w'" in
      let E := fresh "E" in
      remember (exec c w) as w' eqn:E; revert E
  end.

(** ** [move_motor] *)

Section MoveMotor.

Context {M : Type} `{AccelStepper M} `{WString}.

Lemma move_motor_busy (w : world M) (no_rotations : F32.t) :
  isRunning (g_AccelStepper w) = true ->
  move_motor no_rotations w =
    (S754_zero false,
     mk_world (g_data w) (EEPROM w) (g_AccelStepper w) (MOTOR_PIN3_high w)
       (Serial w ++ [Txt "Motor still running, ignoring request to move"; Eol])%list
       (sent w) (restarted w)).
Proof.
  destruct w as [d e m pin ser snt rs]. cbn [g_AccelStepper]. intros Hrun.
  unfold move_motor, bind, get_stepper. cbn [g_AccelStepper].
  rewrite Hrun. reflexivity.
Qed.

Lemma move_motor_idle (w : world M) (no_rotations : F32.t) :
  isRunning (g_AccelStepper w) = false ->
  let r := move_motor no_rotations w in
  let p := planned_move no_rotations (g_data w) in
  fst r = fst p /\
  g_data (snd r) = snd p /\
  EEPROM (snd r) = Stored (snd p) /\
  g_AccelStepper (snd r) =
    move (F32.mul (fst p) (steps_per_revolution (g_data w)))
      (setCurrentPosition 0
         (if Z.eqb (stepper_motor_and_driver (g_data w)) 0
          then enableOutputs (g_AccelStepper w) else g_AccelStepper w)) /\
  sent (snd r) = sent w /\
  restarted (snd r) = restarted w.
Proof.
  destruct w as [d e m pin ser snt rs]. cbn [g_AccelStepper]. intros Hrun.
  unfold move_motor, planned_move, bind, get_stepper.
  cbn [g_AccelStepper]. rewrite Hrun. run_io.
  destruct (F32.lt _ _); [|destruct (F32.gt _ _)]; run_io;
    change (stepper_motor_and_driver (set_position_current ?a
              (set_position_current_previous ?b d)))
      with (stepper_motor_and_driver d);
    change (steps_per_revolution (set_position_current ?a
              (set_position_current_previous ?b d)))
      with (steps_per_revolution d);
    destruct (Z.eqb _ 0); run_io; repeat split; reflexivity.
Qed.

Lemma planned_move_keeps_invariant (d : settings) (no_rotations : F32.t) :
  position_invariant d ->
  F32.is_nan (F32.add (position_current d) no_rotations) = false ->
  position_invariant (snd (planned_move no_rotations d)).
Proof.
  intros (Hlc & Hcr & Hlr) Hnan.
  destruct (le_not_nan _ _ Hlr) as [Hl Hr].
  unfold planned_move, position_invariant.
  destruct (F32.lt _ _) eqn:Hlt; [|destruct (F32.gt _ _) eqn:Hgt];
    destruct d; cbn in *; repeat split;
    auto using le_refl, lt_false_le, gt_false_le.
Qed.

(** C1 (amended).  With the motor idle, a record that satisfies
    [left <= current <= right] and a requested delta whose float sum
    [current + delta] is not a NaN: [move_motor] commits and persists a
    record that still satisfies the invariant, keeps both thresholds and
    has [previous] equal to the old [current].  A clamped move returns
    the float difference [new_current - old_current]; an unclamped move
    returns the requested delta and sets [current] to the float sum
    [old_current + delta]. *)
Theorem move_motor_clamps (w : world M) (delta : F32.t) :
  within_thresholds (g_data w) ->
  isRunning (g_AccelStepper w) = false ->
  F32.is_nan (F32.add (position_current (g_data w)) delta) = false ->
  let r := move_motor delta w in
  let old := g_data w in
  let new := g_data (snd r) in
  position_invariant new /\
  position_current_previous new = position_current old /\
  position_left new = position_left old /\
  position_right new = position_right old /\
  EEPROM (snd r) = Stored new /\
  ((position_current new = position_left old \/
    position_current new = position_right old) /\
   fst r = F32.sub (position_current new) (position_current old)
   \/
   position_current new = F32.add (position_current old) delta /\
   fst r = delta).
Proof.
  intros Hinv Hidle Hnan. apply within_thresholds_invariant in Hinv.
  destruct (move_motor_idle w delta Hidle) as (Hret & Hdata & Hrom & _).
  cbv zeta. rewrite Hret, Hdata, Hrom.
  split; [apply planned_move_keeps_invariant; assumption|].
  unfold planned_move.
  destruct (F32.lt _ _); [|destruct (F32.gt _ _)];
    destruct (g_data w); cbn; repeat split; auto.
Qed.

(** C5.  While the motor is running, a move command is ignored:
    [move_motor] reports it on the console and performs 0.0 rotations;
    the API answers 200 (not an error) with 0.0 performed rotations, the
    web buttons answer 200 with the unchanged page; settings, EEPROM and
    motor stay exactly as they were. *)
Theorem move_ignored_while_busy
    (w : world M) (value api : string) (rotations : F32.t) :
  isRunning (g_AccelStepper w) = true ->
  api = apikey (g_data w) ->
  String.eqb value "" = false ->
  move_motor rotations w =
    (S754_zero false,
     mk_world (g_data w) (EEPROM w) (g_AccelStepper w) (MOTOR_PIN3_high w)
       (Serial w ++ [Txt "Motor still running, ignoring request to move"; Eol])%list
       (sent w) (restarted w))
  /\
  (let w' := exec (handle_api "move_motor" value api) w in
   g_data w' = g_data w /\ EEPROM w' = EEPROM w /\
   g_AccelStepper w' = g_AccelStepper w /\
   MOTOR_PIN3_high w' = MOTOR_PIN3_high w /\
   sent w' =
     (sent w ++
      [(200, [Txt "OK (the 'move_motor' action has performed '";
              Flt (S754_zero false); Txt "' rotations)"])])%list /\
   In (Txt "Motor still running, ignoring request to move") (Serial w'))
  /\
  (forall press, press = handle_move_left \/ press = handle_move_right ->
   let w' := exec (press rotations) w in
   g_data w' = g_data w /\ EEPROM w' = EEPROM w /\
   g_AccelStepper w' = g_AccelStepper w /\
   MOTOR_PIN3_high w' = MOTOR_PIN3_high w /\
   sent w' = (sent w ++ [(200, [Page (g_data w)])])%list).
Proof.
  intros Hrun Hapi Hvalue.
  split; [apply move_motor_busy; assumption|].
  split.
  - subst api.
    destruct w as [d e m pin ser snt rs]. cbn [g_data g_AccelStepper] in *.
    isolate_run. unfold handle_api. eval_tests. run_io.
    rewrite String.eqb_refl, Hvalue. run_io.
    rewrite move_motor_busy by assumption. run_io. intros ->.
    repeat split. rewrite !in_app_iff. cbn. tauto.
  - intros press [-> | ->]; unfold handle_move_left, handle_move_right;
      destruct w as [d e m pin ser snt rs]; cbn [g_data g_AccelStepper] in *;
      run_io; rewrite move_motor_busy by assumption; run_io;
      repeat split.
Qed.

End MoveMotor.

(** ** The dispatcher *)

Section Dispatcher.

Context {M : Type} `{AccelStepper M} `{WString}.


(** C8.  With a valid API key, [move_total_left] on a device whose [left]
    threshold is within [g_epsilon] of the default -100.0 answers error
    501, commands no motor and changes no setting, and so does the web
    button; the same holds for [move_total_right] and the default +100.0.
    The default values themselves are within the tolerance. *)
Theorem move_total_needs_calibration (w : world M) (value api : string) :
  api = apikey (g_data w) ->
  let d := g_data w in
  (threshold_not_set (position_left d) DEFAULT_POSITION_LEFT = true ->
   (let w' := exec (handle_api "move_total_left" value api) w in
    g_data w' = d /\ EEPROM w' = EEPROM w /\
    g_AccelStepper w' = g_AccelStepper w /\
    MOTOR_PIN3_high w' = MOTOR_PIN3_high w /\
    sent w' =
      (sent w ++ [(501, [Txt "NOK ('left' treshold not set yet)"])])%list)
   /\
   (let w' := exec handle_move_total_left w in
    g_data w' = d /\ EEPROM w' = EEPROM w /\
    g_AccelStepper w' = g_AccelStepper w /\
    MOTOR_PIN3_high w' = MOTOR_PIN3_high w /\
    sent w' = (sent w ++ [(501, [Page d])])%list))
  /\
  (threshold_not_set (position_right d) DEFAULT_POSITION_RIGHT = true ->
   (let w' := exec (handle_api "move_total_right" value api) w in
    g_data w' = d /\ EEPROM w' = EEPROM w /\
    g_AccelStepper w' = g_AccelStepper w /\
    MOTOR_PIN3_high w' = MOTOR_PIN3_high w /\
    sent w' =
      (sent w ++ [(501, [Txt "NOK ('right' treshold not set yet)"])])%list)
   /\
   (let w' := exec handle_move_total_right w in
    g_data w' = d /\ EEPROM w' = EEPROM w /\
    g_AccelStepper w' = g_AccelStepper w /\
    MOTOR_PIN3_high w' = MOTOR_PIN3_high w /\
    sent w' = (sent w ++ [(501, [Page d])])%list))
  /\
  threshold_not_set (F64.to_float DEFAULT_POSITION_LEFT)
    DEFAULT_POSITION_LEFT = true
  /\
  threshold_not_set (F64.to_float DEFAULT_POSITION_RIGHT)
    DEFAULT_POSITION_RIGHT = true.
Proof.
  intros ->. destruct w as [d e m pin ser snt rs]. cbn [g_data].
  split; [|split; [|split; vm_compute; reflexivity]];
    (intros Hunset; split; isolate_run;
     unfold handle_api, handle_move_total_left, handle_move_total_right;
     eval_tests; run_io; rewrite ?String.eqb_refl, Hunset; run_io;
     intros ->; repeat split).
Qed.

(** C9 (amended).  With a valid API key and no value supplied:
    [move_motor] and [set_host] answer error 501 with a "no value
    supplied" / "no hostname supplied" message and change neither the
    settings, the EEPROM nor the motor; [set_language] answers error 501
    as well but falls back to English: it stores language 0 and persists
    the settings. *)
Theorem missing_value_handling (w : world M) (api : string) :
  api = apikey (g_data w) ->
  let d := g_data w in
  (let w' := exec (handle_api "move_motor" "" api) w in
   g_data w' = d /\ EEPROM w' = EEPROM w /\
   g_AccelStepper w' = g_AccelStepper w /\
   MOTOR_PIN3_high w' = MOTOR_PIN3_high w /\
   sent w' =
     (sent w ++
      [(501, [Txt "NOK (no value supplied for 'move_motor' action)"])])%list)
  /\
  (let w' := exec (handle_api "set_host" "" api) w in
   g_data w' = d /\ EEPROM w' = EEPROM w /\
   g_AccelStepper w' = g_AccelStepper w /\
   MOTOR_PIN3_high w' = MOTOR_PIN3_high w /\
   sent w' =
     (sent w ++
      [(501, [Txt "NOK (no hostname supplied for 'set_host' action)"])])%list)
  /\
  (let w' := exec (handle_api "set_language" "" api) w in
   g_data w' = set_language 0 d /\ EEPROM w' = Stored (set_language 0 d) /\
   g_AccelStepper w' = g_AccelStepper w /\
   MOTOR_PIN3_high w' = MOTOR_PIN3_high w /\
   sent w' =
     (sent w ++
      [(501, [Txt "NOK (no language supplied for 'set_language' action, falling back to English"])])%list).
Proof.
  intros ->. destruct w as [d e m pin ser snt rs]. cbn [g_data].
  split; [|split]; isolate_run; unfold handle_api; eval_tests; run_io;
    rewrite String.eqb_refl; run_io; intros ->; repeat split.
Qed.

(** C6.  Both stop handlers (the API with a valid key, and the web
    button) read the step counter [raw] after [stop()] and take
    [moved = raw / steps_per_revolution].  If [|moved| > g_epsilon], that
    is [moved > g_epsilon] or [moved < - g_epsilon], they commit and
    persist [current = previous + moved]; otherwise the settings and the
    EEPROM stay as they are.  Afterwards the step counter is 0.  With
    [previous = 10.0], 200 steps per revolution and [raw = 150] the new
    [current] is 10.75; with [raw = -150] it is 9.25.  The steps per
    revolution are any IEEE [float]. *)
Theorem stop_motor_reconciles (w w' : world M) (value api : string) :
  api = apikey (g_data w) ->
  valid_binary F32.prec F32.emax (steps_per_revolution (g_data w)) = true ->
  w' = exec (handle_api "stop_motor" value api) w \/
  w' = exec handle_stop_motor w ->
  let d := g_data w in
  let raw := currentPosition (stop (g_AccelStepper w)) in
  let moved := moved_rotations raw (steps_per_revolution d) in
  g_data w' =
    (if exceeds_epsilon moved
     then set_position_current
            (F32.add (position_current_previous d) moved) d
     else d) /\
  EEPROM w' = (if exceeds_epsilon moved then Stored (g_data w')
               else EEPROM w) /\
  currentPosition (g_AccelStepper w') = 0 /\
  (position_current_previous d = F32.of_Z 10 ->
   steps_per_revolution d = F32.of_Z 200 ->
   raw = 150 ->
   position_current (g_data w') = lit 1075 2) /\
  (position_current_previous d = F32.of_Z 10 ->
   steps_per_revolution d = F32.of_Z 200 ->
   raw = -150 ->
   position_current (g_data w') = lit 925 2).
Proof.
  intros -> Hvalid Hw'. destruct w as [d e m pin ser snt rs].
  cbn [g_data g_AccelStepper] in *.
  assert (Hshape :
    g_data w' =
      (if motor_even_moved (positions_moved_of (currentPosition (stop m)) d)
       then set_position_current
              (F32.add (position_current_previous d)
                 (positions_moved_of (currentPosition (stop m)) d)) d
       else d) /\
    EEPROM w' =
      (if motor_even_moved (positions_moved_of (currentPosition (stop m)) d)
       then Stored (g_data w') else e) /\
    currentPosition (g_AccelStepper w') = 0).
  { destruct Hw' as [-> | ->];
      unfold handle_api, handle_stop_motor, stop_and_reconcile;
      eval_tests; run_io; rewrite ?String.eqb_refl; run_io;
      destruct (motor_even_moved _); run_io;
      rewrite currentPosition_setCurrentPosition; repeat split. }
  rewrite motor_even_moved_spec in Hshape.
  rewrite (positions_moved_of_spec _ d Hvalid) in Hshape.
  destruct Hshape as (Hd & He & Hc). cbv zeta.
  split; [exact Hd|]. split; [exact He|]. split; [exact Hc|].
  split; intros Hprev Hspr Hraw; rewrite Hd;
    unfold moved_rotations; rewrite Hraw, Hspr, Hprev;
    vm_compute; reflexivity.
Qed.

End Dispatcher.

Section Invariant.

Context {M : Type} `{AccelStepper M} `{WString}.












End Invariant.

Section Loop.

Context {M : Type} `{AccelStepper M} `{WString}.

Lemma loop_after_handleClient
    (w : world M) (client : option request) (wifi : wifi_status) :
  let served := exec (handleClient client) w in
  let w' := exec (loop client wifi) w in
  let type0 := Z.eqb (stepper_motor_and_driver (g_data served)) 0 in
  g_data w' = g_data served /\
  EEPROM w' = EEPROM served /\
  sent w' = sent served /\
  restarted w' = restarted served /\
  Serial w' =
    (Serial served ++
     if restarted served then []
     else watchdog_console (g_data served) wifi)%list /\
  g_AccelStepper w' =
    (if restarted served then g_AccelStepper served
     else
       let stepper := run (g_AccelStepper served) in
       let cooled :=
         if isRunning stepper then stepper
         else if type0 then disableOutputs stepper else stepper in
       if watchdog_fires wifi then run cooled else cooled) /\
  MOTOR_PIN3_high w' =
    (if restarted served then MOTOR_PIN3_high served
     else if isRunning (run (g_AccelStepper served))
          then MOTOR_PIN3_high served
          else if type0 then MOTOR_PIN3_high served else false).
Proof.
  cbv zeta. unfold loop, after_client, exec, bind.
  destruct (handleClient client w) as [[] [d e m pin ser snt rs]].
  cbn [snd restarted]. destruct rs.
  { cbn. rewrite app_nil_r. repeat split. }
  unfold loop_motor, wifi_reconnect, watchdog_console, watchdog_fires.
  run_io.
  destruct (isRunning (run m)); run_io;
    [|destruct (Z.eqb (stepper_motor_and_driver d) 0); run_io];
    (destruct wifi as [|waits [address|]]; run_io;
     repeat split; cbn [app];
     rewrite <- ?app_assoc, ?app_nil_r; reflexivity).
Qed.

(** C4 (amended).  A pass of [loop] serves at most one request, calls
    [run()] once and, if the motor is then idle, switches the motor outputs
    off: [disableOutputs()] for the 28BYJ-48, the sleep pin [MOTOR_PIN3]
    low for the A4988.  If the WiFi watchdog fires, [wifi_reconnect] calls
    [run()] a second time and reports on the console.  Apart from what the
    served request does, the pass changes neither the settings nor the
    EEPROM and answers nothing: it never recomputes [current] from the step
    counter, never persists and never resets the counter itself.  In
    particular a pass without a request leaves settings and EEPROM as they
    were.  Reconciliation only happens in the stop handlers. *)
Theorem loop_never_reconciles
    (w : world M) (client : option request) (wifi : wifi_status) :
  (let served := exec (handleClient client) w in
   let w' := exec (loop client wifi) w in
   let type0 := Z.eqb (stepper_motor_and_driver (g_data served)) 0 in
   g_data w' = g_data served /\
   EEPROM w' = EEPROM served /\
   sent w' = sent served /\
   restarted w' = restarted served /\
   Serial w' =
     (Serial served ++
      if restarted served then []
      else watchdog_console (g_data served) wifi)%list /\
   g_AccelStepper w' =
     (if restarted served then g_AccelStepper served
      else
        let stepper := run (g_AccelStepper served) in
        let cooled :=
          if isRunning stepper then stepper
          else if type0 then disableOutputs stepper else stepper in
        if watchdog_fires wifi then run cooled else cooled) /\
   MOTOR_PIN3_high w' =
     (if restarted served then MOTOR_PIN3_high served
      else if isRunning (run (g_AccelStepper served))
           then MOTOR_PIN3_high served
           else if type0 then MOTOR_PIN3_high served else false))
  /\
  (let w' := exec (loop None wifi) w in
   g_data w' = g_data w /\ EEPROM w' = EEPROM w).
Proof.
  split; [apply loop_after_handleClient|].
  destruct (loop_after_handleClient w None wifi) as (Hd & He & _).
  split; assumption.
Qed.


End Loop.

(** ** Concrete runs on the reference motor *)

(** C4, as stated, fails.  The API is asked to move 0.3 rotations (614 of
    the 2048 steps per revolution).  In the pass in which the motor takes
    its last step and turns idle, [loop] neither recomputes [current] (it
    stays 0.3, the step counter says 614/2048), nor writes the EEPROM, nor
    resets the step counter (it stays 614); the reconciliation of the stop
    handlers would have done all three. *)
Lemma loop_tick_does_not_reconcile :
  let before :=
    exec (loops (Some (Api "move_motor" "0.3" example_key) :: repeat None 612))
      example_world in
  let after := exec (loop None WiFi_connected) before in
  let reconciled := exec (stop_and_reconcile false) after in
  isRunning (g_AccelStepper before) = true /\
  isRunning (g_AccelStepper after) = false /\
  currentPosition (g_AccelStepper after) = 614 /\
  g_data after = g_data before /\
  EEPROM after = EEPROM before /\
  position_current (g_data after) = lit 3 1 /\
  position_current (g_data reconciled) = F32.of_Z2 614 (-11) /\
  g_data after <> g_data reconciled /\
  currentPosition (g_AccelStepper reconciled) = 0.
Proof.
  vm_compute. repeat split; try reflexivity. discriminate.
Qed.

(** C1, as stated, fails.  At position 50.0 with the factory thresholds and
    an idle motor, a requested delta of 0.000000001 is not clamped:
    [move_motor] returns the delta itself, but the float sum
    [50.0 + 0.000000001] is 50.0, so [new_current - old_current] is 0 and
    differs from the returned delta. *)
Lemma move_motor_delta_not_exact :
  let w := world_at_50 in
  let delta := toFloat "0.000000001" in
  let r := move_motor delta w in
  within_thresholds (g_data w) /\
  isRunning (g_AccelStepper w) = false /\
  position_current (g_data (snd r)) = position_current (g_data w) /\
  fst r = delta /\
  F32.sub (position_current (g_data (snd r))) (position_current (g_data w))
    = S754_zero false /\
  F32.eq (fst r)
    (F32.sub (position_current (g_data (snd r))) (position_current (g_data w)))
    = false.
Proof.
  vm_compute. repeat split; reflexivity.
Qed.


(** C9, as stated, fails.  [set_language] without a value reports an error
    but changes the persisted state (the language falls back from 1 to 0);
    [motor_acceleration] without a value reports no error at all and stores
    the acceleration 0.0. *)
Lemma set_language_without_value_changes_state :
  let w := example_world in
  let w' := exec (handle_api "set_language" "" example_key) w in
  let w'' := exec (handle_api "motor_acceleration" "" example_key) w in
  language (g_data w) = 1 /\ language (g_data w') = 0 /\
  EEPROM w' = Stored (set_language 0 (g_data w)) /\
  EEPROM w' <> EEPROM w /\
  sent w' =
    [(501, [Txt "NOK (no language supplied for 'set_language' action, falling back to English"])] /\
  sent w'' = [(200, [Txt "OK"])] /\
  motor_acceleration (g_data w) = lit 100 0 /\
  motor_acceleration (g_data w'') = lit 0 0 /\
  EEPROM w'' <> EEPROM w.
Proof.
  vm_compute. repeat split; try reflexivity; discriminate.
Qed.

(** C3: the code at the failing input.  With [left = -250] (calibrated),
    [current = 0] and an idle motor, [move_total_left] (API and web button
    alike) calls [move_motor (-100.0)]: the planned position is -100 and
    the motor is sent 204800 steps, whereas [move_motor (left - current)]
    plans the threshold -250 and 512000 steps. *)
Theorem move_total_left_stops_short :
  let w := exec (handle_api "set_left" "-250" example_key) example_world in
  let d := g_data w in
  let api := exec (handle_api "move_total_left" "" example_key) w in
  let web := exec handle_move_total_left w in
  let by_delta :=
    exec (move_motor (F32.sub (position_left d) (position_current d))) w in
  positions d = (lit (-250) 0, lit 0 0, lit 0 0, lit 100 0) /\
  threshold_not_set (position_left d) DEFAULT_POSITION_LEFT = false /\
  isRunning (g_AccelStepper w) = false /\
  positions (g_data api) = (lit (-250) 0, lit 0 0, lit (-100) 0, lit 100 0) /\
  g_data web = g_data api /\
  positions (g_data by_delta) = (lit (-250) 0, lit 0 0, lit (-250) 0, lit 100 0) /\
  sim_targetPos (g_AccelStepper api) = -204800 /\
  sim_targetPos (g_AccelStepper by_delta) = -512000.
Proof.
  vm_compute. repeat split; reflexivity.
Qed.

(** C10.  The stop handlers do not clamp.  The API asks for a move of 10
    rotations, resets the current position and sets the right threshold to
    it while the motor runs; the record then has [left = -100],
    [previous = current = right = 0].  After 100 steps [stop_motor] commits
    and persists [current = previous + 100 / 2048], strictly above
    [right]. *)
Theorem stop_motor_may_leave_range :
  exists (w : world sim),
    let d := g_data w in
    let raw := currentPosition (stop (g_AccelStepper w)) in
    let w' := exec (handle_api "stop_motor" "" example_key) w in
    let web := exec handle_stop_motor w in
    w = exec (loops ([Some (Api "move_motor" "10" example_key);
                      Some (Api "reset_current" "" example_key);
                      Some (Api "set_right" "" example_key)]
                     ++ repeat None 97)) example_world /\
    position_invariant d /\
    F32.le (position_left d) (position_current_previous d) = true /\
    F32.le (position_current_previous d) (position_right d) = true /\
    raw = 100 /\
    position_current (g_data w') =
      F32.add (position_current_previous d) (positions_moved_of raw d) /\
    EEPROM w' = Stored (g_data w') /\
    position_left (g_data w') = position_left d /\
    position_right (g_data w') = position_right d /\
    F32.gt (position_current (g_data w')) (position_right (g_data w')) = true /\
    g_data web = g_data w'.
Proof.
  eexists. cbv zeta. split; [reflexivity|].
  vm_compute. repeat split; reflexivity.
Qed.

(** ** Further runs of the model *)

(** The end-to-end scenario of the specification: calibrate the left
    threshold at 0, move by 50, wait until the motor has taken its 102400
    steps, then ask for -100, which is clamped to -50. *)
Example scenario_calibrate_and_move :
  let w1 :=
    exec (loop (Some (Api "set_left" "" example_key)) WiFi_connected)
      example_world in
  let w2 := exec (loops (Some (Api "move_motor" "50" example_key)
                         :: repeat None (Z.to_nat 102400))) w1 in
  let w3 :=
    exec (loop (Some (Api "move_motor" "-100" example_key)) WiFi_connected)
      w2 in
  positions (g_data w1) = (lit 0 0, lit 0 0, lit 0 0, lit 100 0) /\
  positions (g_data w2) = (lit 0 0, lit 0 0, lit 50 0, lit 100 0) /\
  isRunning (g_AccelStepper w2) = false /\
  positions (g_data w3) = (lit 0 0, lit 50 0, lit 0 0, lit 100 0) /\
  sent w3 =
    [(200, [Txt "OK (threshold 'left' set to value '"; Flt (lit 0 0);
            Txt "')"]);
     (200, [Txt "OK (the 'move_motor' action has performed '";
            Flt (lit 50 0); Txt "' rotations)"]);
     (200, [Txt "OK (the 'move_motor' action has performed '";
            Flt (lit (-50) 0); Txt "' rotations)"])].
Proof. vm_compute. repeat split; reflexivity. Qed.

(** A NaN delta passes both threshold tests of [move_motor]. *)
Example move_motor_nan_delta :
  let r := move_motor S754_nan example_world in
  fst r = S754_nan /\
  position_current (g_data (snd r)) = S754_nan /\
  F32.le (position_left (g_data (snd r))) (position_current (g_data (snd r)))
  = false.
Proof. vm_compute. repeat split; reflexivity. Qed.

(** The tolerance of the calibration check: the two floats next to -100.0
    (2^-17 away) still count as the default, the next ones and -99.5 do
    not. *)
Example calibration_check_tolerance :
  threshold_not_set (F32.of_Z2 (-13107201) (-17)) DEFAULT_POSITION_LEFT = true /\
  threshold_not_set (F32.of_Z2 (-13107199) (-17)) DEFAULT_POSITION_LEFT = true /\
  threshold_not_set (F32.of_Z2 (-13107202) (-17)) DEFAULT_POSITION_LEFT = false /\
  threshold_not_set (lit (-995) 1) DEFAULT_POSITION_LEFT = false.
Proof. vm_compute. repeat split; reflexivity. Qed.

(** One press of [Stop Motor] runs [handle_stop_motor] twice in
    [handle_root]; the second run finds the step counter at 0 and changes
    nothing. *)
Example press_stop_runs_handler_twice :
  let w :=
    exec (loops (Some (Api "move_motor" "10" example_key) :: repeat None 99))
      example_world in
  let w' := exec (handle_root true ["stop_motor"]) w in
  g_data w' = g_data (exec handle_stop_motor w) /\
  List.length (sent w') = 3%nat.
Proof. vm_compute. repeat split; reflexivity. Qed.

(** A pass while the WiFi link is down steps the motor twice, once in
    [loop] and once in [wifi_reconnect], and reports on the console; the
    settings, the EEPROM and the answers are those of a pass with the link
    up. *)
Example pass_with_wifi_down_steps_twice :
  let up := exec (loop None WiFi_connected) world_moving in
  let down := exec (loop None (WiFi_lost 40 None)) world_moving in
  currentPosition (g_AccelStepper world_moving) = 0 /\
  currentPosition (g_AccelStepper up) = 1 /\
  currentPosition (g_AccelStepper down) = 2 /\
  List.length (Serial down) = (List.length (Serial up) + 8 + 31)%nat /\
  g_data down = g_data up /\ EEPROM down = EEPROM up /\
  sent down = sent up.
Proof. vm_compute. repeat split; reflexivity. Qed.

(** ** The theorems at concrete inputs *)

(** A requested move of 150 rotations from the factory position 0 is
    clamped at the right threshold. *)
Lemma move_motor_clamps_witness :
  position_invariant
    (g_data (snd (move_motor (toFloat "150") example_world))).
Proof.
  refine (proj1 (move_motor_clamps example_world (toFloat "150") _ _ _)).
  - vm_compute. repeat split; reflexivity.
  - vm_compute. reflexivity.
  - vm_compute. reflexivity.
Defined.

(** A second move while the first one is still running. *)
Lemma move_ignored_while_busy_witness :
  g_data (exec (handle_api "move_motor" "-20" example_key) world_moving)
  = g_data world_moving.
Proof.
  refine (proj1 (proj1 (proj2
    (move_ignored_while_busy world_moving "-20" example_key (lit (-20) 0)
       _ _ _)))).
  - vm_compute. reflexivity.
  - reflexivity.
  - reflexivity.
Defined.

(** The example of the specification: 10.0 + 150 / 200 = 10.75. *)
Lemma stop_motor_reconciles_witness :
  position_current
    (g_data (exec (handle_api "stop_motor" "" example_key) world_stopping))
  = lit 1075 2.
Proof.
  refine (proj1 (proj2 (proj2 (proj2
    (stop_motor_reconciles world_stopping _ "" example_key _ _
       (or_introl eq_refl))))) _ _ _).
  - reflexivity.
  - vm_compute. reflexivity.
  - reflexivity.
  - reflexivity.
  - reflexivity.
Defined.


(** The factory device is not calibrated. *)
Lemma move_total_needs_calibration_witness :
  sent (exec (handle_api "move_total_left" "" example_key) example_world)
  = [(501, [Txt "NOK ('left' treshold not set yet)"])].
Proof.
  refine (proj2 (proj2 (proj2 (proj2 (proj1 (proj1
    (move_total_needs_calibration example_world "" example_key _) _)))))).
  - reflexivity.
  - vm_compute. reflexivity.
Defined.

(** [move_motor] without a value on the factory device. *)
Lemma missing_value_handling_witness :
  sent (exec (handle_api "move_motor" "" example_key) example_world)
  = [(501, [Txt "NOK (no value supplied for 'move_motor' action)"])].
Proof.
  refine (proj2 (proj2 (proj2 (proj2 (proj1
    (missing_value_handling example_world example_key _)))))).
  reflexivity.
Defined.


(** * Access control, persistence and the life cycle of the device

    The properties below cover the rest of the firmware: the key check of
    the API, what each handler may write, the EEPROM across restarts,
    [setup], the erase and the two forms.  Those that speak about texts
    sent to the device hold where C++ defines the handlers: the texts fit
    their buffers ([texts_fit]) and the language indexes the string tables
    ([language_ok]). *)

(** ** Programs that keep a property *)

Section Keeps.

Context {M : Type} `{AccelStepper M} `{AccelStepperNew M} `{WString}.

Lemma keeps_ret (Q : world M -> Prop) {A} (a : A) : keeps Q (ret a).
Proof. intros w HQ. exact HQ. Qed.

Lemma keeps_bind (Q : world M -> Prop) {A B} (c : io M A) (k : A -> io M B) :
  keeps Q c -> (forall a, keeps Q (k a)) -> keeps Q (bind c k).
Proof.
  intros Hc Hk w HQ. unfold bind.
  specialize (Hc w HQ). destruct (c w) as [a w']. exact (Hk a w' Hc).
Qed.

(** A property of the settings alone is kept by everything that leaves
    the settings alone. *)
Lemma keeps_settings_property (P : settings -> Prop) {A} (c : io M A) :
  (forall w, g_data (snd (c w)) = g_data w) ->
  keeps (fun w => P (g_data w)) c.
Proof. intros Hc w HP. rewrite Hc. exact HP. Qed.

Lemma keeps_modify_data (P : settings -> Prop) (f : settings -> settings) :
  (forall d, P d -> P (f d)) ->
  keeps (fun w => P (g_data w)) (modify_data (M := M) f).
Proof. intros Hf [d e m pin ser snt rs] HP. exact (Hf d HP). Qed.

Lemma exec_bind {A B} (c : io M A) (k : A -> io M B) (w : world M) :
  exec (bind c k) w = exec (k (fst (c w))) (snd (c w)).
Proof. unfold exec, bind. destruct (c w). reflexivity. Qed.

End Keeps.

(** A statement that does not write the settings. *)
Ltac frame := apply keeps_settings_property; intros []; reflexivity.

(** One step of a proof that a program keeps a property of the settings:
    split sequences and conditionals, close the statements that do not
    write the settings, and leave the assignments. *)
Ltac keeps_settings :=
  repeat match goal with
  | |- keeps _ (bind _ _) => apply keeps_bind; [|intros ?]
  | |- keeps _ (if ?c then _ else _) => destruct c eqn:?
  | |- keeps _ (ret _) => apply keeps_ret
  | |- keeps _ (modify_data _) => apply keeps_modify_data
  | |- keeps _ get_data => frame
  | |- keeps _ get_stepper => frame
  | |- keeps _ (Serial_print _) => frame
  | |- keeps _ (Serial_println _) => frame
  | |- keeps _ (Serial_write _) => frame
  | |- keeps _ (server_send _ _) => frame
  | |- keeps _ (send_page _) => frame
  | |- keeps _ EEPROM_put_commit => frame
  | |- keeps _ EEPROM_clear_commit => frame
  | |- keeps _ ESP_restart => frame
  | |- keeps _ (modify_stepper _) => frame
  | |- keeps _ (digitalWrite_MOTOR_PIN3 _) => frame
  end.

(** The handlers down to the statements of the monad. *)
Ltac unfold_handlers :=
  unfold handle_root, handle_logout, handle_settings, handle_reset_left,
    handle_reset_current, handle_reset_right, handle_move_left,
    handle_move_right, handle_set_left, handle_set_right,
    handle_move_total_left, handle_move_total_right, handle_stop_motor,
    stop_and_reconcile, handle_erase, handle_wifi_ajax, handle_settings_ajax,
    move_motor, loop_motor.

Section Language.

Context {M : Type} `{AccelStepper M} `{AccelStepperNew M} `{WString}.

Lemma serve_keeps_language (r : any_request) :
  keeps (M := M) (fun w => language_ok (g_data w)) (serve r).
Proof.
  destruct r as [[action value api | authenticated args] | | form s p
                | form u p a h l t rv ac sp];
    cbn [serve handleClient]; unfold handle_api; unfold_handlers.
  all: keeps_settings.
  all: unfold language_ok; intros []; cbn; try tauto.
  all: rewrite ?orb_false_iff, ?Z.ltb_ge, ?Z.gtb_ltb, ?Z.ltb_ge in *; lia.
Qed.

End Language.

Section Frames.

Context {M : Type} `{AccelStepper M} `{AccelStepperNew M} `{WString}.

(** The part of a pass after the request looks after the motor and the
    WiFi link: it leaves the settings, the EEPROM, the answers and the
    restart flag alone. *)
Lemma after_client_frame (wifi : wifi_status) (w : world M) :
  let w' := exec (after_client wifi) w in
  g_data w' = g_data w /\ EEPROM w' = EEPROM w /\
  restarted w' = restarted w /\ sent w' = sent w.
Proof.
  destruct w as [d e m pin ser snt rs]. cbv zeta.
  unfold after_client, exec. cbn [restarted]. destruct rs; [repeat split|].
  unfold loop_motor, wifi_reconnect. run_io.
  destruct (isRunning (run m)); run_io;
    [|destruct (Z.eqb (stepper_motor_and_driver d) 0); run_io];
    (destruct wifi as [|waits [address|]]; run_io; repeat split).
Qed.

Lemma pass_frame
    (c : option any_request) (wifi : wifi_status) (w : world M) :
  let served := match c with
                | Some r => exec (serve r) w
                | None => w
                end in
  let w' := exec (pass c wifi) w in
  g_data w' = g_data served /\ EEPROM w' = EEPROM served /\
  restarted w' = restarted served /\ sent w' = sent served.
Proof.
  cbv zeta. unfold pass. rewrite exec_bind.
  destruct c as [r|]; apply after_client_frame.
Qed.

Lemma keeps_pass (P : settings -> Prop) :
  (forall r, keeps (M := M) (fun w => P (g_data w)) (serve r)) ->
  forall c wifi, keeps (M := M) (fun w => P (g_data w)) (pass c wifi).
Proof.
  intros Hserve c wifi w HP.
  destruct (pass_frame c wifi w) as (Hd & _). unfold exec in Hd.
  rewrite Hd. destruct c as [r|]; [apply Hserve|]; exact HP.
Qed.

(** The fields of the forms are written by the two forms alone. *)
Lemma serve_keeps_form_fields
    (F : string * string * F32.t * string * string * F32.t * Z)
    (r : any_request) :
  is_form r = false ->
  keeps (M := M) (fun w => form_fields (g_data w) = F) (serve r).
Proof.
  destruct r as [[action value api | authenticated args] | | form s p
                | form u p a h l t rv ac sp];
    cbn [is_form]; try discriminate; intros _;
    cbn [serve handleClient]; unfold handle_api; unfold_handlers.
  all: keeps_settings.
  all: intros []; cbn; trivial.
Qed.

(** The thresholds are written by the calibration requests alone. *)
Lemma serve_keeps_left (L : F32.t) (r : any_request) :
  may_set_left r = false ->
  keeps (M := M) (fun w => position_left (g_data w) = L) (serve r).
Proof.
  intros Hmay.
  destruct r as [[action value api | authenticated args] | | form s p
                | form u p a h l t rv ac sp];
    cbn [serve handleClient may_set_left] in *;
    try (apply orb_false_iff in Hmay as [Hset Hreset]);
    unfold handle_api; unfold_handlers.
  all: keeps_settings.
  all: try congruence.
  all: intros []; cbn; trivial.
Qed.

Lemma serve_keeps_right (R : F32.t) (r : any_request) :
  may_set_right r = false ->
  keeps (M := M) (fun w => position_right (g_data w) = R) (serve r).
Proof.
  intros Hmay.
  destruct r as [[action value api | authenticated args] | | form s p
                | form u p a h l t rv ac sp];
    cbn [serve handleClient may_set_right] in *;
    try (apply orb_false_iff in Hmay as [Hset Hreset]);
    unfold handle_api; unfold_handlers.
  all: keeps_settings.
  all: try congruence.
  all: intros []; cbn; trivial.
Qed.

End Frames.

(** Decide the first test the evaluation is stuck on, both ways. *)
Ltac split_if :=
  match goal with
  | |- context [if ?c then _ else _] =>
      let E := fresh "E" in
      destruct c eqn:E;
      try (apply String.eqb_eq in E; subst; eval_tests)
  end; run_io.

(** The test that guards the [set_api] block, back in the form of the
    source after the evaluation has expanded [&&] and [negb]. *)
Ltac fold_set_api_test api d :=
  match goal with
  | |- context [String.eqb ?action "set_api"] =>
      change (if if String.eqb action "set_api"
                 then Z.eqb (apikey_set d) 0 else false
              then if String.eqb api g_default_api_key then false else true
              else false)
        with (String.eqb action "set_api" && Z.eqb (apikey_set d) 0
              && negb (String.eqb api g_default_api_key))
  end.

Section Access.

Context {M : Type} `{AccelStepper M} `{AccelStepperNew M} `{WString}.

(** X1.  Without credentials nothing happens.  A call of the API whose key
    is not the stored one (and that is not the first [set_api]) changes
    neither the settings, the EEPROM, the motor nor the sleep pin, does not
    restart, and is answered 501 with the key it sent.  A request for the
    root page without the login cookie changes nothing either, whatever
    buttons it carries, and is answered with the redirection to [/login]
    followed by 200 [Unauthorized]. *)
Theorem no_change_without_credentials
    (w : world M) (action value api : string) (args : list string) :
  texts_fit (Served (Api action value api)) = true ->
  String.eqb api (apikey (g_data w)) = false ->
  String.eqb action "set_api" && Z.eqb (apikey_set (g_data w)) 0
    && negb (String.eqb api g_default_api_key) = false ->
  (let w' := exec (handle_api action value api) w in
   g_data w' = g_data w /\ EEPROM w' = EEPROM w /\
   g_AccelStepper w' = g_AccelStepper w /\
   MOTOR_PIN3_high w' = MOTOR_PIN3_high w /\
   restarted w' = restarted w /\
   sent w' =
     (sent w ++
      [(501,
        [Txt "NOK (you are not authorized to perform an action without a valid API key, provided api-key '";
         Txt api; Txt "')"])])%list)
  /\
  (let w' := exec (handle_root false args) w in
   g_data w' = g_data w /\ EEPROM w' = EEPROM w /\
   g_AccelStepper w' = g_AccelStepper w /\
   MOTOR_PIN3_high w' = MOTOR_PIN3_high w /\
   restarted w' = restarted w /\
   sent w' =
     (sent w ++ [(301, redirect_to_login); (200, [Txt "Unauthorized"])])%list).
Proof.
  intros _ Hkey Hset. destruct w as [d e m pin ser snt rs].
  cbn [g_data] in *.
  split; isolate_run.
  - unfold handle_api. run_io.
    fold_set_api_test api d. rewrite Hset. run_io. rewrite Hkey. run_io. intros ->. repeat split.
  - unfold handle_root. run_io. intros ->. repeat split.
    rewrite <- app_assoc. reflexivity.
Qed.

(** X4.  With the valid key, an action that is none of the fifteen the
    dispatcher knows is answered 501 [NOK (unknown action supplied)] and
    changes nothing. *)
Theorem unknown_action_rejected (w : world M) (action value api : string) :
  texts_fit (Served (Api action value api)) = true ->
  api = apikey (g_data w) ->
  String.eqb action "set_api" && Z.eqb (apikey_set (g_data w)) 0
    && negb (String.eqb api g_default_api_key) = false ->
  existsb (String.eqb action) known_actions = false ->
  let w' := exec (handle_api action value api) w in
  g_data w' = g_data w /\ EEPROM w' = EEPROM w /\
  g_AccelStepper w' = g_AccelStepper w /\
  MOTOR_PIN3_high w' = MOTOR_PIN3_high w /\
  restarted w' = restarted w /\
  sent w' = (sent w ++ [(501, [Txt "NOK (unknown action supplied)"])])%list.
Proof.
  intros _ -> Hset Hknown. destruct w as [d e m pin ser snt rs].
  cbn [g_data] in *.
  unfold known_actions in Hknown. cbn [existsb] in Hknown.
  repeat (apply orb_false_iff in Hknown; destruct Hknown as [? Hknown]).
  isolate_run. unfold handle_api. run_io.
  fold_set_api_test (apikey d) d. rewrite Hset. run_io. rewrite String.eqb_refl. run_io.
  repeat match goal with E : String.eqb action _ = false |- _ =>
    rewrite E; clear E end.
  run_io. intros ->. repeat split.
Qed.

End Access.

Section ApiKey.

Context {M : Type} `{AccelStepper M} `{AccelStepperNew M} `{WString}.

(** X2.  As long as no key has been set ([apikey_set = 0]), [set_api] needs
    no valid key: any caller whose [api] text differs from the default key
    and has at most 64 characters replaces the key.  The key stored is
    [value], not the [api] text that was checked, [apikey_set] becomes 1,
    the record is written to the EEPROM, and the call is answered twice:
    200 for the key, then a 501 of the dispatcher it falls through to. *)
Theorem set_api_needs_no_key (w : world M) (value api : string) :
  texts_fit (Served (Api "set_api" value api)) = true ->
  apikey_set (g_data w) = 0 ->
  String.eqb api g_default_api_key = false ->
  (Z.of_nat (String.length api) <= LENGTH_API_KEY) ->
  let w' := exec (handle_api "set_api" value api) w in
  g_data w' = set_apikey_set 1 (set_apikey value (g_data w)) /\
  EEPROM w' = Stored (g_data w') /\
  g_AccelStepper w' = g_AccelStepper w /\
  exists answer,
    sent w' =
      (sent w ++
       [(200, [Txt "OK (API key set to value '"; Txt value; Txt "')"]);
        (501, answer)])%list.
Proof.
  intros _ Hset Hdefault Hlen. destruct w as [d e m pin ser snt rs].
  cbn [g_data] in *.
  isolate_run. unfold handle_api. run_io.
  change (String.eqb "set_api" "set_api") with true.
  rewrite Hset, Hdefault. cbn [Z.eqb]. run_io.
  replace (Z.of_nat (String.length api) >? LENGTH_API_KEY) with false
    by (symmetry; rewrite Z.gtb_ltb; apply Z.ltb_ge; exact Hlen).
  run_io.
  replace (apikey (set_apikey_set 1 (set_apikey value d))) with value
    by (destruct d; reflexivity).
  eval_tests. run_io.
  destruct (String.eqb api value); run_io; intros ->; repeat split;
    eexists; rewrite <- app_assoc; reflexivity.
Qed.

End ApiKey.

Section Moves.

Context {M : Type} `{AccelStepper M} `{AccelStepperNew M} `{WString}.

(** Everything [move_motor] does to the device, busy or idle. *)
Lemma move_motor_effect (w : world M) (x : F32.t) :
  let r := move_motor x w in
  let busy := isRunning (g_AccelStepper w) in
  let p := planned_move x (g_data w) in
  fst r = (if busy then S754_zero false else fst p) /\
  g_data (snd r) = (if busy then g_data w else snd p) /\
  EEPROM (snd r) = (if busy then EEPROM w else Stored (snd p)) /\
  g_AccelStepper (snd r) =
    (if busy then g_AccelStepper w
     else move (F32.mul (fst p) (steps_per_revolution (g_data w)))
            (setCurrentPosition 0
               (if Z.eqb (stepper_motor_and_driver (g_data w)) 0
                then enableOutputs (g_AccelStepper w)
                else g_AccelStepper w))) /\
  MOTOR_PIN3_high (snd r) =
    (if busy then MOTOR_PIN3_high w
     else if Z.eqb (stepper_motor_and_driver (g_data w)) 0
          then MOTOR_PIN3_high w else true) /\
  sent (snd r) = sent w /\
  restarted (snd r) = restarted w.
Proof.
  cbv zeta. destruct (isRunning (g_AccelStepper w)) eqn:Hrun.
  - rewrite move_motor_busy by assumption. repeat split.
  - destruct w as [d e m pin ser snt rs]. cbn [g_AccelStepper g_data] in *.
    unfold move_motor, planned_move, bind, get_stepper.
    cbn [g_AccelStepper]. rewrite Hrun. run_io.
    destruct (F32.lt _ _); [|destruct (F32.gt _ _)]; run_io;
      change (stepper_motor_and_driver (set_position_current ?a
                (set_position_current_previous ?b d)))
        with (stepper_motor_and_driver d);
      change (steps_per_revolution (set_position_current ?a
                (set_position_current_previous ?b d)))
        with (steps_per_revolution d);
      destruct (Z.eqb _ 0); run_io; repeat split; reflexivity.
Qed.

End Moves.

(** Replace a call of [move_motor] that the evaluation cannot enter by its
    effect. *)
Ltac enter_move :=
  match goal with
  | |- context [move_motor ?x ?W] =>
      let Hm := fresh "Hm" in
      let a := fresh "a" in
      pose proof (move_motor_effect W x) as Hm;
      cbv zeta in Hm; cbn [g_data EEPROM g_AccelStepper MOTOR_PIN3_high sent
                           restarted] in Hm;
      destruct (move_motor x W) as [a [? ? ? ? ? ? ?]];
      cbn [fst snd g_data EEPROM g_AccelStepper MOTOR_PIN3_high sent
           restarted] in Hm;
      destruct Hm as (? & ? & ? & ? & ? & ? & ?); subst; run_io
  end.

Section ApiKeyOnce.

Context {M : Type} `{AccelStepper M} `{AccelStepperNew M} `{WString}.

(** Once [apikey_set] is not 0 the [set_api] block is closed, and nothing
    else in [handle_api] writes the key. *)
Lemma handle_api_keeps_key (w : world M) (action value api : string) :
  apikey_set (g_data w) <> 0 ->
  let w' := exec (handle_api action value api) w in
  apikey (g_data w') = apikey (g_data w) /\
  apikey_set (g_data w') = apikey_set (g_data w).
Proof.
  intros Hset. apply Z.eqb_neq in Hset.
  destruct w as [d e m pin ser snt rs]. cbn [g_data] in *.
  isolate_run. unfold handle_api, stop_and_reconcile. run_io.
  rewrite Hset. run_io.
  destruct (String.eqb action "set_api"); run_io.
  all: repeat split_if.
  all: try enter_move.
  all: intros ->; cbn [g_data]; unfold planned_move;
    repeat match goal with
    | |- context [if ?c then _ else _] => destruct c
    end;
    destruct d; split; reflexivity.
Qed.

Lemma serve_keeps_key (k : string) (n : Z) (r : any_request) :
  n <> 0 ->
  is_settings_form r = false ->
  keeps (M := M)
    (fun w => (fun d => apikey d = k /\ apikey_set d = n) (g_data w))
    (serve r).
Proof.
  intros Hn.
  destruct r as [[action value api | authenticated args] | | form s p
                | form u p a h l t rv ac sp];
    cbn [is_settings_form]; try discriminate; intros _;
    cbn [serve handleClient].
  - intros w [Hk Hs].
    destruct (handle_api_keeps_key w action value api) as [Hk' Hs'].
    + rewrite Hs. exact Hn.
    + unfold exec in *. split; congruence.
  - unfold_handlers. keeps_settings.
    all: intros [] [? ?]; cbn in *; split; assumption.
  - unfold_handlers. keeps_settings.
    all: intros [] [? ?]; cbn in *; split; assumption.
  - unfold_handlers. keeps_settings.
    all: intros [] [? ?]; cbn in *; split; assumption.
Qed.

End ApiKeyOnce.

(** ** The EEPROM against the settings in memory *)

(** [stored] at the end of one path of a handler. *)
Ltac stored_leaf Hs :=
  intros ->; unfold stored in *; cbn [g_data EEPROM] in *;
  unfold planned_move;
  repeat match goal with
  | |- context [if ?c then _ else _] => destruct c
  end;
  destruct Hs as [Hv He];
  (split;
   [ match goal with d : settings |- _ => destruct d; cbn in *; assumption end
   | first [ reflexivity | assumption ] ]).

(** [stored_unless] at the end of one path of [handle_api]: the EEPROM
    is in step with the memory, or the path is the one of an erase. *)
Ltac api_stored_leaf Hs :=
  intros ->; unfold stored_unless, persisted, stored in *;
  cbn [g_data EEPROM restarted] in *;
  unfold planned_move;
  repeat match goal with
  | |- context [if ?c then _ else _] => destruct c
  end;
  destruct Hs as [Hv He];
  (split;
   [ split;
     [ match goal with d : settings |- _ =>
         destruct d; cbn in *; assumption end
     | first [ left; reflexivity | left; assumption
             | right; split; reflexivity ] ]
   | let Hne := fresh "Hne" in
     intros Hne;
     first [ split;
             [ match goal with d : settings |- _ =>
                 destruct d; cbn in *; assumption end
             | first [ reflexivity | assumption ] ]
           | exfalso; cbn in Hne; congruence ] ]).

(** The field assignments and projections of the settings record. *)
Ltac unfold_settings :=
  cbv beta iota delta
    [set_ssid set_password set_hostname set_version set_apikey
     set_apikey_set set_web_user set_web_password set_position_left
     set_position_current_previous set_position_current
     set_position_right set_language set_motor_acceleration
     set_motor_max_speed set_steps_per_revolution
     set_stepper_motor_and_driver ssid password version hostname apikey
     apikey_set position_left position_current_previous position_current
     position_right language web_user web_password motor_acceleration
     motor_max_speed steps_per_revolution stepper_motor_and_driver
     DEFAULT_LANGUAGE].

(** A handler keeps [stored]: run it on every path. *)
Ltac keeps_stored_handler :=
  let Hs := fresh "Hs" in
  intros [d e m pin ser snt rs] Hs;
  match goal with
  | |- stored (snd (?c ?w)) => change (stored (exec c w))
  | |- stored (exec _ _) => idtac
  end;
  isolate_run; unfold_handlers; run_io;
  repeat split_if;
  try enter_move;
  stored_leaf Hs.

Section Persistence.

Context {M : Type} `{AccelStepper M} `{AccelStepperNew M} `{WString}.

Lemma stored_persisted (w : world M) : stored w -> persisted w.
Proof. intros [Hv He]. split; [exact Hv | left; exact He]. Qed.

Lemma stored_unless_of_stored (erasing : bool) (w : world M) :
  stored w -> stored_unless erasing w.
Proof.
  intros Hs. split; [apply stored_persisted; exact Hs | intros _; exact Hs].
Qed.

(** Every path of [handle_api] that writes the settings writes the EEPROM
    after it; the one path that erases the EEPROM is the action [reset]
    with value [true], and it restarts. *)
Lemma handle_api_from_stored (action value api : string) (w : world M) :
  stored w ->
  stored_unless (String.eqb action "reset" && String.eqb value "true")
    (exec (handle_api action value api) w).
Proof.
  intros Hs. destruct w as [d e m pin ser snt rs].
  isolate_run. unfold handle_api, stop_and_reconcile. run_io.
  repeat split_if.
  all: try enter_move.
  all: api_stored_leaf Hs.
Qed.

Lemma handle_root_keeps_stored
    (authenticated : bool) (args : list string) :
  keeps (M := M) stored (handle_root authenticated args).
Proof.
  unfold handle_root.
  repeat match goal with
  | |- keeps _ (bind _ _) => apply keeps_bind; [|intros ?]
  | |- keeps _ (if ?c then _ else _) => destruct c
  | |- keeps _ (ret _) => apply keeps_ret
  end.
  all: keeps_stored_handler.
Qed.

Lemma serve_from_stored (r : any_request) (w : world M) :
  stored w -> stored_unless (is_erase r) (exec (serve r) w).
Proof.
  intros Hs.
  destruct r as [[action value api | authenticated args] | | form s p
                | form u p a h l t rv ac sp]; cbn [serve handleClient is_erase].
  - apply handle_api_from_stored. exact Hs.
  - apply stored_unless_of_stored.
    exact (handle_root_keeps_stored authenticated args w Hs).
  - destruct w as [d e m pin ser snt rs]. destruct Hs as [Hv _].
    split; [|discriminate].
    split; [exact Hv | right; split; reflexivity].
  - apply stored_unless_of_stored. revert w Hs. keeps_stored_handler.
  - apply stored_unless_of_stored. revert w Hs. keeps_stored_handler.
Qed.

Lemma pass_from_stored
    (c : option any_request) (wifi : wifi_status) (w : world M) :
  stored w ->
  stored_unless (match c with Some r => is_erase r | None => false end)
    (exec (pass c wifi) w).
Proof.
  intros Hs.
  destruct (pass_frame c wifi w) as (Hd & He & Hr & _).
  assert (Hserved :
    stored_unless (match c with Some r => is_erase r | None => false end)
      (match c with Some r => exec (serve r) w | None => w end)).
  { destruct c as [r|];
      [apply serve_from_stored | apply stored_unless_of_stored]; exact Hs. }
  unfold stored_unless, persisted, stored in *.
  rewrite Hd, He, Hr. exact Hserved.
Qed.

(** What [setup] loads, for every EEPROM image. *)
Lemma setup_loads (e : eeprom_image) :
  let d := EEPROM_get e in
  let w := exec setup (power_on (M := M) e) in
  g_data w =
    (if Z.eqb (float_to_long (version d)) 1
     then set_version g_current_version d
     else
       mk_settings "" "" g_current_version g_default_host_name
         g_default_api_key 0
         (F64.to_float DEFAULT_POSITION_LEFT)
         (F64.to_float DEFAULT_POSITION_CURRENT_PREVIOUS)
         (F64.to_float DEFAULT_POSITION_CURRENT)
         (F64.to_float DEFAULT_POSITION_RIGHT)
         DEFAULT_LANGUAGE g_default_web_user g_default_web_password
         (F64.to_float MOTOR_ACCELERATION) (F64.to_float MOTOR_MAX_SPEED)
         (steps_per_revolution d) (stepper_motor_and_driver d)) /\
  EEPROM w = Stored (g_data w) /\
  g_AccelStepper w =
    setMaxSpeed (motor_max_speed (g_data w))
      (setAcceleration (motor_acceleration (g_data w))
         (if Z.eqb (stepper_motor_and_driver d) 0
          then AccelStepper_FULL4WIRE else AccelStepper_DRIVER)) /\
  sent w = [] /\ restarted w = false.
Proof.
  cbv zeta. unfold setup, setup_EEPROM, setup_AccelStepper, power_on.
  change (float_to_long g_current_version) with 1.
  run_io.
  destruct (EEPROM_get e)
    as [s1 s2 v h k ks pl pp pc pr lg wu wp ma mm spr smd].
  destruct (Z.eqb smd 0) eqn:Hmotor;
    (destruct (Z.eqb lg 0) eqn:Hlanguage;
     [ | ]);
    repeat (run_io; unfold_settings;
            rewrite ?Hmotor, ?Hlanguage;
            try change (Z.eqb 1 0) with false;
            try match goal with
                | |- context [Z.eqb (float_to_long v) 1] =>
                    destruct (Z.eqb (float_to_long v) 1)
                end);
    repeat split; reflexivity.
Qed.

End Persistence.

(** ** Restarts *)

Section Lifecycle.

Context {M : Type} `{AccelStepper M} `{AccelStepperNew M} `{WString}.

Lemma set_version_same (d : settings) :
  set_version (version d) d = d.
Proof. destruct d; reflexivity. Qed.

Lemma setup_stored (e : eeprom_image) :
  stored (exec setup (power_on (M := M) e)) /\
  restarted (exec setup (power_on (M := M) e)) = false.
Proof.
  destruct (setup_loads (M := M) e) as (Hd & He & _ & _ & Hr).
  split; [split|exact Hr].
  - rewrite Hd. destruct (Z.eqb _ 1); [destruct (EEPROM_get e)|]; reflexivity.
  - exact He.
Qed.

Lemma reboot_of_stored (w : world M) :
  version (g_data w) = g_current_version ->
  EEPROM w = Stored (g_data w) ->
  g_data (reboot w) = g_data w.
Proof.
  intros Hv He. unfold reboot.
  destruct (setup_loads (M := M) (EEPROM w)) as (Hd & _).
  rewrite Hd, He. cbn [EEPROM_get]. rewrite Hv.
  change (Z.eqb (float_to_long g_current_version) 1) with true. cbv iota.
  rewrite <- Hv at 1. apply set_version_same.
Qed.

Lemma reboot_of_erased (w : world M) :
  EEPROM w = Erased -> g_data (reboot w) = settings_after_erase.
Proof.
  intros He. unfold reboot.
  destruct (setup_loads (M := M) (EEPROM w)) as (Hd & _).
  rewrite Hd, He. reflexivity.
Qed.

(** One pass and the restart it may end in: afterwards the EEPROM is in
    step with the memory and no restart is pending; the settings are
    those the pass left, or the ones [setup] writes after an erase. *)
Lemma device_step_stored
    (c : option any_request) (wifi : wifi_status) (w : world M) :
  stored w ->
  let w' := exec (pass c wifi) w in
  let next := if restarted w' then reboot w' else w' in
  stored next /\ restarted next = false /\
  (g_data next = g_data w' \/
   (match c with Some r => is_erase r | None => false end = true /\
    g_data next = settings_after_erase)).
Proof.
  intros Hs. cbv zeta.
  destruct (pass_from_stored c wifi w Hs) as [[Hv Hp] Hne].
  destruct (restarted (exec (pass c wifi) w)) eqn:Hrs.
  - destruct (setup_stored (EEPROM (exec (pass c wifi) w))) as [Hst Hr].
    split; [exact Hst|]. split; [exact Hr|].
    destruct Hp as [He | [He _]].
    + left. apply reboot_of_stored; assumption.
    + right. split; [|apply reboot_of_erased; exact He].
      destruct (match c with Some r => is_erase r | None => false end);
        [reflexivity|].
      destruct (Hne eq_refl) as [_ He']. congruence.
  - destruct Hp as [He | [_ Hr]]; [|congruence].
    split; [split; assumption|]. split; [exact Hrs | left; reflexivity].
Qed.

Lemma device_stored
    (clients : list (option any_request * wifi_status)) (w : world M) :
  stored w -> restarted w = false ->
  stored (device clients w) /\ restarted (device clients w) = false.
Proof.
  revert w. induction clients as [|[c wifi] rest IH]; intros w Hs Hr;
    cbn [device].
  - split; assumption.
  - cbv zeta. destruct (device_step_stored c wifi w Hs) as (Hs' & Hr' & _).
    apply IH; assumption.
Qed.

(** An invariant of the settings that every pass keeps and that the
    defaults written after an erase satisfy holds over the whole life of
    the device. *)
Lemma device_keeps (Q : settings -> Prop) :
  Q settings_after_erase ->
  (forall c wifi, keeps (M := M) (fun w => Q (g_data w)) (pass c wifi)) ->
  forall clients (w : world M),
    stored w -> Q (g_data w) -> Q (g_data (device clients w)).
Proof.
  intros Hdefault Hpass clients.
  induction clients as [|[c wifi] rest IH]; intros w Hs HQ; cbn [device].
  - exact HQ.
  - cbv zeta.
    destruct (device_step_stored c wifi w Hs) as (Hs' & _ & Hd).
    apply IH; [exact Hs'|].
    destruct Hd as [-> | [_ ->]]; [|exact Hdefault].
    exact (Hpass c wifi w HQ).
Qed.

(** An invariant of the settings that every request outside [bad] keeps
    holds as long as no request of [bad] is served and the EEPROM is not
    erased, restarts included. *)
Lemma device_keeps_unless (Q : settings -> Prop) (bad : any_request -> bool) :
  (forall r, bad r = false ->
             keeps (M := M) (fun w => Q (g_data w)) (serve r)) ->
  forall clients (w : world M),
    none_of is_erase clients = true ->
    none_of bad clients = true ->
    stored w -> Q (g_data w) -> Q (g_data (device clients w)).
Proof.
  intros Hserve clients.
  induction clients as [|[c wifi] rest IH]; intros w Herase Hbad Hs HQ;
    cbn [device].
  - exact HQ.
  - cbv zeta. cbn [none_of forallb fst] in Herase, Hbad.
    apply andb_true_iff in Herase as [Hc_erase Herase].
    apply andb_true_iff in Hbad as [Hc_bad Hbad].
    destruct (device_step_stored c wifi w Hs) as (Hs' & _ & Hd).
    apply IH; try assumption.
    destruct Hd as [-> | [Hc _]].
    + destruct (pass_frame c wifi w) as (Hd & _). rewrite Hd.
      destruct c as [r|]; [|exact HQ].
      apply negb_true_iff in Hc_bad. exact (Hserve r Hc_bad w HQ).
    + destruct c as [r|]; [|discriminate].
      rewrite Hc in Hc_erase. discriminate.
Qed.

Lemma device_from_setup
    (e : eeprom_image) (clients : list (option any_request * wifi_status)) :
  stored (device clients (exec setup (power_on (M := M) e))) /\
  restarted (device clients (exec setup (power_on (M := M) e))) = false.
Proof.
  destruct (setup_stored e) as [Hs Hr]. apply device_stored; assumption.
Qed.

(** X8.  At the end of every pass of the control loop, over the whole life
    of the device (any EEPROM image at power-on, any requests, any state
    of the WiFi link, restarts included), the EEPROM holds exactly the
    settings in memory: after a power cut at that moment [setup] loads the
    same settings again. *)
Theorem power_cycle_loses_nothing
    (e : eeprom_image)
    (clients : list (option any_request * wifi_status)) :
  language_ok (EEPROM_get e) ->
  all_fit clients = true ->
  let w := device clients (exec setup (power_on (M := M) e)) in
  EEPROM w = Stored (g_data w) /\
  restarted w = false /\
  g_data (reboot w) = g_data w.
Proof.
  intros _ _. cbv zeta.
  destruct (device_from_setup e clients) as [[Hv He] Hr].
  repeat split; try assumption. apply reboot_of_stored; assumption.
Qed.

(** X3.  Once a key has been set ([apikey_set <> 0]) it stays: no request
    and no restart changes [apikey] or [apikey_set] again, whatever the
    action, the value and the key sent, until the EEPROM is erased (X11)
    or the settings form overwrites the key (X14). *)
Theorem api_key_frozen_until_erased
    (e : eeprom_image)
    (before clients : list (option any_request * wifi_status)) :
  language_ok (EEPROM_get e) ->
  all_fit before = true ->
  all_fit clients = true ->
  none_of is_erase clients = true ->
  none_of is_settings_form clients = true ->
  let w := device before (exec setup (power_on (M := M) e)) in
  apikey_set (g_data w) <> 0 ->
  apikey (g_data (device clients w)) = apikey (g_data w) /\
  apikey_set (g_data (device clients w)) = apikey_set (g_data w).
Proof.
  intros _ _ _ Herase Hform. cbv zeta. intros Hset.
  destruct (device_from_setup e before) as [Hs _].
  apply (device_keeps_unless
           (fun d => apikey d = apikey (g_data (device before
                       (exec setup (power_on (M := M) e)))) /\
                     apikey_set d = apikey_set (g_data (device before
                       (exec setup (power_on (M := M) e)))))
           is_settings_form); try assumption.
  - intros r Hr. apply serve_keeps_key; assumption.
  - split; reflexivity.
Qed.

(** X6.  The WiFi credentials, the version, the web login, the steps per
    revolution and the motor type are out of reach of the API and of the
    buttons of the web interface: as long as neither form is posted and
    the EEPROM is not erased, these fields stay as they are through any
    requests and restarts.  (An erase resets them, X11.) *)
Theorem form_fields_change_only_by_forms_or_erase
    (e : eeprom_image)
    (before clients : list (option any_request * wifi_status)) :
  language_ok (EEPROM_get e) ->
  all_fit before = true ->
  all_fit clients = true ->
  none_of is_erase clients = true ->
  none_of is_form clients = true ->
  let w := device before (exec setup (power_on (M := M) e)) in
  form_fields (g_data (device clients w)) = form_fields (g_data w).
Proof.
  intros _ _ _ Herase Hform. cbv zeta.
  destruct (device_from_setup e before) as [Hs _].
  apply (device_keeps_unless
           (fun d => form_fields d = form_fields (g_data (device before
                       (exec setup (power_on (M := M) e)))))
           is_form); try assumption.
  - intros r Hr. apply serve_keeps_form_fields. exact Hr.
  - reflexivity.
Qed.

(** X7.  The left threshold changes only through [set_left] and
    [reset_left] (API action or button) and the right one only through
    [set_right] and [reset_right]: as long as no such request is served
    and the EEPROM is not erased, the threshold stays as it is through any
    other requests (moves and forms included) and restarts.  (An erase
    resets both, X11.) *)
Theorem thresholds_change_only_by_calibration_or_erase
    (e : eeprom_image)
    (before clients : list (option any_request * wifi_status)) :
  language_ok (EEPROM_get e) ->
  all_fit before = true ->
  all_fit clients = true ->
  none_of is_erase clients = true ->
  let w := device before (exec setup (power_on (M := M) e)) in
  (none_of may_set_left clients = true ->
   position_left (g_data (device clients w)) = position_left (g_data w)) /\
  (none_of may_set_right clients = true ->
   position_right (g_data (device clients w)) = position_right (g_data w)).
Proof.
  intros _ _ _ Herase. cbv zeta.
  destruct (device_from_setup e before) as [Hs _].
  split; intros Hmay.
  - apply (device_keeps_unless
             (fun d => position_left d = position_left (g_data (device before
                         (exec setup (power_on (M := M) e)))))
             may_set_left); try assumption.
    + intros r Hr. apply serve_keeps_left. exact Hr.
    + reflexivity.
  - apply (device_keeps_unless
             (fun d => position_right d = position_right (g_data (device before
                         (exec setup (power_on (M := M) e)))))
             may_set_right); try assumption.
    + intros r Hr. apply serve_keeps_right. exact Hr.
    + reflexivity.
Qed.

End Lifecycle.

(** ** Stopping a motor that has not moved *)

Lemma mul_by_zero (x : F32.t) (b : bool) :
  F32.mul x (S754_zero b) = S754_nan \/
  exists s, F32.mul x (S754_zero b) = S754_zero s.
Proof.
  destruct x as [s | s | | s m e];
    [right; exists (xorb s b) | left | left | right; exists (xorb s b)];
    reflexivity.
Qed.

(** With the step counter at 0 the distance moved is 0 or, when the steps
    per revolution are 0, a NaN; neither passes the [fabs (..) > g_epsilon]
    test. *)
Lemma not_moved_at_zero (d : settings) :
  motor_even_moved (positions_moved_of 0 d) = false.
Proof.
  unfold motor_even_moved, positions_moved_of.
  generalize (F64.mul (F64.of_float (steps_per_revolution d)) (F64.of_Z2 1 0)).
  intros y. destruct y as [s | s | | s m e]; vm_compute; reflexivity.
Qed.

Section Stop.

Context {M : Type} `{AccelStepper M} `{AccelStepperNew M} `{WString}.

Lemma stop_and_reconcile_at_zero (report : bool) (w : world M) :
  currentPosition (stop (g_AccelStepper w)) = 0 ->
  let w' := exec (stop_and_reconcile report) w in
  g_data w' = g_data w /\ EEPROM w' = EEPROM w /\
  g_AccelStepper w' = setCurrentPosition 0 (stop (g_AccelStepper w)) /\
  MOTOR_PIN3_high w' = MOTOR_PIN3_high w /\
  sent w' = sent w /\ restarted w' = restarted w.
Proof.
  intros Hzero. destruct w as [d e m pin ser snt rs].
  cbn [g_AccelStepper] in Hzero. cbv zeta.
  unfold stop_and_reconcile. run_io. rewrite Hzero.
  rewrite not_moved_at_zero. destruct report; run_io; repeat split.
Qed.

End Stop.

(** Replace a call of [stop_and_reconcile] that finds the step counter at
    0 by its effect. *)
Ltac enter_stop Hzero :=
  match goal with
  | |- context [stop_and_reconcile ?b ?W] =>
      let Hs := fresh "Hs" in
      pose proof (stop_and_reconcile_at_zero b W Hzero) as Hs;
      cbv zeta in Hs; unfold exec in Hs;
      cbn [g_data EEPROM g_AccelStepper MOTOR_PIN3_high sent restarted] in Hs;
      destruct (stop_and_reconcile b W) as [? [? ? ? ? ? ? ?]];
      cbn [fst snd g_data EEPROM g_AccelStepper MOTOR_PIN3_high sent
           restarted] in Hs;
      destruct Hs as (? & ? & ? & ? & ? & ?); subst; run_io
  end.

(** Run [handle_api] for a literal action other than [set_api] and a valid
    key up to the code of the action. *)
Ltac enter_api Hkey :=
  unfold handle_api; run_io;
  match goal with
  | |- context [String.eqb ?a "set_api"] =>
      let b := eval vm_compute in (String.eqb a "set_api") in
      change (String.eqb a "set_api") with b
  end;
  run_io; rewrite ?Hkey; eval_tests; run_io.

Section StopHandlers.

Context {M : Type} `{AccelStepper M} `{AccelStepperNew M} `{WString}.

Lemma handle_stop_motor_at_zero (w : world M) :
  currentPosition (stop (g_AccelStepper w)) = 0 ->
  let w2 := exec handle_stop_motor w in
  g_data w2 = g_data w /\ EEPROM w2 = EEPROM w /\
  sent w2 = (sent w ++ [(200, [Page (g_data w)])])%list.
Proof.
  intros Hzero. destruct w as [d e m pin ser snt rs].
  cbn [g_AccelStepper g_data EEPROM sent] in *. cbv zeta.
  isolate_run. unfold handle_stop_motor, send_page. run_io.
  enter_stop Hzero. intros ->. repeat split.
Qed.

(** X15.  A stop while the step counter reads 0 changes neither the
    settings nor the EEPROM, for any steps per revolution (0.0 included,
    where the distance moved is 0/0): the API answers 200 [OK], the web
    handler the page. *)
Theorem stop_at_zero_changes_nothing (w : world M) (value api : string) :
  language_ok (g_data w) ->
  texts_fit (Served (Api "stop_motor" value api)) = true ->
  currentPosition (stop (g_AccelStepper w)) = 0 ->
  String.eqb api (apikey (g_data w)) = true ->
  let w1 := exec (handle_api "stop_motor" value api) w in
  let w2 := exec handle_stop_motor w in
  (g_data w1 = g_data w /\ EEPROM w1 = EEPROM w /\
   sent w1 = (sent w ++ [(200, [Txt "OK"])])%list) /\
  (g_data w2 = g_data w /\ EEPROM w2 = EEPROM w /\
   sent w2 = (sent w ++ [(200, [Page (g_data w)])])%list).
Proof.
  intros _ _ Hzero Hkey.
  split; [|apply handle_stop_motor_at_zero; exact Hzero].
  destruct w as [d e m pin ser snt rs].
  cbn [g_AccelStepper g_data EEPROM sent] in *.
  isolate_run. enter_api Hkey.
  enter_stop Hzero. intros ->. repeat split.
Qed.

Lemma handle_stop_motor_stepper (w : world M) :
  g_AccelStepper (exec handle_stop_motor w)
  = setCurrentPosition 0 (stop (g_AccelStepper w)).
Proof.
  destruct w as [d e m pin ser snt rs].
  unfold handle_stop_motor, stop_and_reconcile, send_page. run_io.
  destruct (motor_even_moved _); reflexivity.
Qed.

(** X16.  [handle_root] tests [stop_motor] twice, so one press of the stop
    button runs [handle_stop_motor] twice.  If the stepper's counter still
    reads 0 after [setCurrentPosition(0)] and a further [stop()], the
    second run changes nothing: the settings and the EEPROM are those of
    one run, and the page is sent a second time. *)
Theorem stop_button_reconciles_once (w : world M) :
  language_ok (g_data w) ->
  currentPosition (stop (setCurrentPosition 0 (stop (g_AccelStepper w))))
  = 0 ->
  let w1 := exec handle_stop_motor w in
  let w' := exec (handle_root true ["stop_motor"]) w in
  g_data w' = g_data w1 /\ EEPROM w' = EEPROM w1 /\
  sent w' = (sent w1 ++ [(200, [Page (g_data w1)])])%list.
Proof.
  intros _ Hzero. cbv zeta.
  assert (Hroot : exec (handle_root true ["stop_motor"]) w
                  = exec handle_stop_motor (exec handle_stop_motor w)).
  { unfold handle_root.
    change (negb true) with false. cbv iota.
    repeat match goal with
    | |- context [hasArg ["stop_motor"] ?s] =>
        let b := eval vm_compute in (hasArg ["stop_motor"] s) in
        change (hasArg ["stop_motor"] s) with b
    end.
    cbv iota. rewrite !exec_bind.
    unfold ret at 1 2. cbn [fst snd]. unfold exec. reflexivity. }
  rewrite Hroot.
  rewrite <- handle_stop_motor_stepper in Hzero.
  exact (handle_stop_motor_at_zero (exec handle_stop_motor w) Hzero).
Qed.

End StopHandlers.

(** ** The web interface against the API *)

Lemma lt_irrefl (x : F32.t) : SFltb x x = false.
Proof.
  unfold SFltb. destruct (F32.is_nan x) eqn:Hnan.
  - destruct x; try discriminate. reflexivity.
  - rewrite SFcompare_refl by assumption. reflexivity.
Qed.

(** Name the two runs that [same_device] compares. *)
Ltac two_runs :=
  match goal with
  | |- same_device (exec ?a ?w) (exec ?b ?w) =>
      let w1 := fresh "w1" in
      let w2 := fresh "w2" in
      let E1 := fresh "E1" in
      let E2 := fresh "E2" in
      remember (exec a w) as w1 eqn:E1;
      remember (exec b w) as w2 eqn:E2;
      revert E1 E2
  end.

Section WebAndApi.

Context {M : Type} `{AccelStepper M} `{AccelStepperNew M} `{WString}.

(** X17.  The buttons of the web interface and the actions of the API do
    the same to the device (settings, EEPROM, motor, sleep pin): the three
    resets, the moves, the two total moves and the stop always; the
    [Set Left] button agrees with [set_left] without a value unless
    [current > right], and [Set Right] with [set_right] unless
    [current < left], where the API runs a check that the buttons
    lack. *)
Theorem web_buttons_agree_with_api (w : world M) (api value : string) :
  language_ok (g_data w) ->
  forallb (fun action => texts_fit (Served (Api action value api)))
    ["reset_left"; "reset_current"; "reset_right"; "move_motor";
     "move_total_left"; "move_total_right"; "stop_motor"] = true ->
  texts_fit (Served (Api "set_left" "" api)) = true ->
  texts_fit (Served (Api "set_right" "" api)) = true ->
  String.eqb api (apikey (g_data w)) = true ->
  String.eqb value "" = false ->
  same_device (exec handle_reset_left w)
              (exec (handle_api "reset_left" value api) w) /\
  same_device (exec handle_reset_current w)
              (exec (handle_api "reset_current" value api) w) /\
  same_device (exec handle_reset_right w)
              (exec (handle_api "reset_right" value api) w) /\
  same_device (exec (handle_move_left (toFloat value)) w)
              (exec (handle_api "move_motor" value api) w) /\
  same_device (exec (handle_move_right (toFloat value)) w)
              (exec (handle_api "move_motor" value api) w) /\
  same_device (exec handle_move_total_left w)
              (exec (handle_api "move_total_left" value api) w) /\
  same_device (exec handle_move_total_right w)
              (exec (handle_api "move_total_right" value api) w) /\
  same_device (exec handle_stop_motor w)
              (exec (handle_api "stop_motor" value api) w) /\
  (F32.gt (position_current (g_data w)) (position_right (g_data w)) = false ->
   same_device (exec handle_set_left w)
               (exec (handle_api "set_left" "" api) w)) /\
  (F32.lt (position_current (g_data w)) (position_left (g_data w)) = false ->
   same_device (exec handle_set_right w)
               (exec (handle_api "set_right" "" api) w)).
Proof.
  intros _ _ _ _ Hkey Hvalue. destruct w as [d e m pin ser snt rs].
  cbn [g_data] in *.
  repeat match goal with |- _ /\ _ => split end.
  all: try intros Hcheck.
  all: two_runs; unfold handle_api; unfold_handlers; unfold send_page;
    enter_api Hkey;
    rewrite ?Hvalue; unfold F32.gt, F32.lt in *;
    rewrite ?lt_irrefl, ?Hcheck; run_io;
    repeat split_if;
    intros -> ->; unfold same_device; repeat split.
Qed.

End WebAndApi.

(** ** Erase, the forms and [setup] *)

(** Evaluate the monad and the record until nothing moves. *)
Ltac settle :=
  repeat (progress (run_io; unfold_settings;
                    try change (Z.eqb 0 0) with true;
                    try change (Z.eqb 1 0) with false;
                    cbv iota)).

Section FormsAndRestart.

Context {M : Type} `{AccelStepper M} `{AccelStepperNew M} `{WString}.

(** X9.  The language stays an index of the two-entry string tables: if
    the EEPROM holds language 0 or 1 at power-on, the language in memory
    is 0 or 1 after any sequence of requests and restarts. *)
Theorem language_in_table_for_life
    (e : eeprom_image)
    (clients : list (option any_request * wifi_status)) :
  language_ok (EEPROM_get e) ->
  all_fit clients = true ->
  language_ok (g_data (device clients (exec setup (power_on (M := M) e)))).
Proof.
  intros Hlang _.
  apply (device_keeps language_ok).
  - right. reflexivity.
  - apply keeps_pass. intros r. apply serve_keeps_language.
  - apply setup_stored.
  - destruct (setup_loads (M := M) e) as (Hd & _). rewrite Hd.
    destruct (Z.eqb _ 1).
    + destruct (EEPROM_get e); exact Hlang.
    + right. reflexivity.
Qed.

(** X11.  After an erase ([/erase], or the action [reset] of the API with
    value [true]) and the restart that follows it, the device holds the
    defaults with 0.0 steps per revolution and motor type 0, in memory and
    in the EEPROM: the erase zeroes the two fields and [setup] does not
    set them. *)
Theorem erase_forgets_motor_settings
    (w : world M) (api : string) (wifi : wifi_status) :
  texts_fit (Served (Api "reset" "true" api)) = true ->
  String.eqb api (apikey (g_data w)) = true ->
  let w1 := device [(Some Erase, wifi)] w in
  let w2 := device [(Some (Served (Api "reset" "true" api)), wifi)] w in
  (g_data w1 = settings_after_erase /\ EEPROM w1 = Stored settings_after_erase)
  /\
  (g_data w2 = settings_after_erase /\ EEPROM w2 = Stored settings_after_erase).
Proof.
  intros _ Hkey. cbv zeta. cbn [device]. cbv zeta.
  assert (Hboot : forall w' : world M,
             EEPROM w' = Erased -> restarted w' = true ->
             g_data (if restarted w' then reboot w' else w')
             = settings_after_erase /\
             EEPROM (if restarted w' then reboot w' else w')
             = Stored settings_after_erase).
  { intros w' He Hr. rewrite Hr.
    pose proof (reboot_of_erased w' He) as Hd. split; [exact Hd|].
    unfold reboot in *.
    destruct (setup_loads (M := M) (EEPROM w')) as (_ & Hs & _).
    rewrite Hs, Hd. reflexivity. }
  assert (Herase : EEPROM (exec (serve Erase) w) = Erased /\
                   restarted (exec (serve Erase) w) = true).
  { destruct w. split; reflexivity. }
  assert (Hreset :
    EEPROM (exec (serve (Served (Api "reset" "true" api))) w) = Erased /\
    restarted (exec (serve (Served (Api "reset" "true" api))) w) = true).
  { destruct w as [d e m pin ser snt rs]. cbn [g_data] in Hkey.
    cbn [serve handleClient].
    split; isolate_run; enter_api Hkey; intros ->; reflexivity. }
  split; apply Hboot.
  - destruct (pass_frame (Some Erase) wifi w) as (_ & He & _).
    rewrite He. apply Herase.
  - destruct (pass_frame (Some Erase) wifi w) as (_ & _ & Hr & _).
    rewrite Hr. apply Herase.
  - destruct (pass_frame (Some (Served (Api "reset" "true" api))) wifi w)
      as (_ & He & _).
    rewrite He. apply Hreset.
  - destruct (pass_frame (Some (Served (Api "reset" "true" api))) wifi w)
      as (_ & _ & Hr & _).
    rewrite Hr. apply Hreset.
Qed.

(** X12.  With 0.0 steps per revolution (the state X11 leaves) an accepted
    move updates and stores the position as usual, but the motor is told
    to go 0 steps, or NaN steps when the distance is infinite or NaN:
    the position record moves and the curtain does not. *)
Theorem move_without_steps_per_revolution
    (w : world M) (x : F32.t) (b : bool) :
  steps_per_revolution (g_data w) = S754_zero b ->
  isRunning (g_AccelStepper w) = false ->
  let w' := snd (move_motor x w) in
  g_data w' = snd (planned_move x (g_data w)) /\
  EEPROM w' = Stored (g_data w') /\
  exists steps,
    (steps = S754_nan \/ exists s, steps = S754_zero s) /\
    g_AccelStepper w' =
      move steps
        (setCurrentPosition 0
           (if Z.eqb (stepper_motor_and_driver (g_data w)) 0
            then enableOutputs (g_AccelStepper w)
            else g_AccelStepper w)).
Proof.
  intros Hspr Hidle. cbv zeta.
  destruct (move_motor_effect w x) as (_ & Hd & He & Hm & _).
  rewrite Hidle in *. rewrite Hd, He. repeat split.
  exists (F32.mul (fst (planned_move x (g_data w))) (S754_zero b)).
  split; [apply mul_by_zero|]. rewrite Hm, Hspr. reflexivity.
Qed.


(** X14.  What the settings form does.  It overwrites the web login, the
    API key and the host name with the posted texts, sets the language to
    0 or 1, sets the motor type together with the steps per revolution of
    that motor (the posted [stepsperrevolution] is not used), takes the
    acceleration and the speed from the form, leaves the positions, the
    WiFi credentials, the version and [apikey_set] alone, writes the
    record to the EEPROM and replaces the stepper by a new object with the
    posted acceleration and speed. *)
Theorem settings_form_effect
    (w : world M) (u p a h l t rv ac sp : string) :
  language_ok (g_data w) ->
  texts_fit (Settings_form "settings" u p a h l t rv ac sp) = true ->
  let w' := exec (handle_settings_ajax "settings" u p a h l t rv ac sp) w in
  let d' := g_data w' in
  steps_match_motor d' /\
  language_ok d' /\
  (web_user d', web_password d', apikey d', hostname d') = (u, p, a, h) /\
  (motor_acceleration d', motor_max_speed d') = (toFloat ac, toFloat sp) /\
  (positions d', apikey_set d', ssid d', password d', version d')
  = (positions (g_data w), apikey_set (g_data w), ssid (g_data w),
     password (g_data w), version (g_data w)) /\
  EEPROM w' = Stored d' /\
  g_AccelStepper w' =
    setMaxSpeed (toFloat sp)
      (setAcceleration (toFloat ac)
         (if Z.eqb (stepper_motor_and_driver d') 0
          then AccelStepper_FULL4WIRE else AccelStepper_DRIVER)).
Proof.
  intros _ _. destruct w as [d e m pin ser snt rs]. cbv zeta.
  destruct d as [s1 s2 v hn k ks pl pp pc pr lg wu wp ma mm spr smd].
  isolate_run. unfold handle_settings_ajax.
  change (String.eqb "settings" "settings") with true. cbv iota.
  settle.
  repeat (match goal with
          | |- _ = ?run -> _ =>
              match run with
              | context [if ?c then _ else _] => destruct c
              end
          end; settle).
  all: intros ->; cbn [g_data EEPROM g_AccelStepper];
    unfold steps_match_motor, language_ok, positions; settle;
    repeat split; auto.
Qed.

(** X10.  [setup] compares the integer parts of the stored and the current
    version.  If they agree the stored record is kept and only its version
    becomes 1.07; if not, the defaults are written, except for the steps
    per revolution and the motor type, which stay as they were read.
    Either way the record is written back to the EEPROM. *)
Theorem setup_checks_major_version (e : eeprom_image) :
  let d := EEPROM_get e in
  let w := exec setup (power_on (M := M) e) in
  language_ok d ->
  is_finite (version d) = true ->
  - 2 ^ 31 < float_to_long (version d) < 2 ^ 31 ->
  (float_to_long (version d) = 1 ->
   g_data w = set_version g_current_version d) /\
  (float_to_long (version d) <> 1 ->
   g_data w =
     set_stepper_motor_and_driver (stepper_motor_and_driver d)
       (set_steps_per_revolution (steps_per_revolution d)
          settings_after_erase)) /\
  EEPROM w = Stored (g_data w).
Proof.
  cbv zeta. intros _ _ _.
  destruct (setup_loads (M := M) e) as (Hd & He & _).
  repeat split; try assumption.
  - intros Hv. rewrite Hd, Hv. reflexivity.
  - intros Hv. rewrite Hd. apply Z.eqb_neq in Hv. rewrite Hv. reflexivity.
Qed.

End FormsAndRestart.

(** ** The answers of the API *)

Section Answers.

Context {M : Type} `{AccelStepper M} `{AccelStepperNew M} `{WString}.

(** X5.  Every call of the API that does not enter the [set_api] block is
    answered exactly once, on every path: invalid key, missing value,
    refused threshold, busy motor or success. *)
Theorem api_answers_once (w : world M) (action value api : string) :
  texts_fit (Served (Api action value api)) = true ->
  String.eqb action "set_api" && Z.eqb (apikey_set (g_data w)) 0
    && negb (String.eqb api g_default_api_key) = false ->
  exists answer,
    sent (exec (handle_api action value api) w) = (sent w ++ [answer])%list.
Proof.
  intros _ Hset. destruct w as [d e m pin ser snt rs].
  cbn [g_data sent] in *.
  isolate_run. unfold handle_api, stop_and_reconcile. run_io.
  fold_set_api_test api d. rewrite Hset. run_io.
  repeat split_if.
  all: try enter_move.
  all: intros ->; eexists; reflexivity.
Qed.

End Answers.

(** ** The properties above at concrete inputs *)

(** A call with a guessed key on the example device. *)
Lemma no_change_without_credentials_witness :
  g_data (exec (handle_api "move_motor" "10" "guess") example_world)
  = g_data example_world.
Proof.
  refine (proj1 (proj1 (no_change_without_credentials
                          example_world "move_motor" "10" "guess" [] _ _ _))).
  - vm_compute. reflexivity.
  - vm_compute. reflexivity.
  - vm_compute. reflexivity.
Defined.

(** The first caller sets the key of the example device to a text of
    their own. *)
Lemma set_api_needs_no_key_witness :
  g_data (exec (handle_api "set_api" "hunter2" "first") example_world)
  = set_apikey_set 1 (set_apikey "hunter2" (g_data example_world)).
Proof.
  refine (proj1 (set_api_needs_no_key example_world "hunter2" "first"
                   _ _ _ _)).
  - vm_compute. reflexivity.
  - vm_compute. reflexivity.
  - vm_compute. reflexivity.
  - unfold LENGTH_API_KEY. simpl. lia.
Defined.

(** An action the dispatcher does not know, with the valid key. *)
Lemma unknown_action_rejected_witness :
  g_data (exec (handle_api "open" "" example_key) example_world)
  = g_data example_world.
Proof.
  refine (proj1 (unknown_action_rejected example_world "open" ""
                   example_key _ _ _ _)).
  - vm_compute. reflexivity.
  - vm_compute. reflexivity.
  - vm_compute. reflexivity.
  - vm_compute. reflexivity.
Defined.

(** A move of the example device is answered once. *)
Lemma api_answers_once_witness :
  exists answer,
    sent (exec (handle_api "move_motor" "10" example_key) example_world)
    = (sent example_world ++ [answer])%list.
Proof.
  refine (api_answers_once example_world "move_motor" "10" example_key _ _).
  - vm_compute. reflexivity.
  - vm_compute. reflexivity.
Defined.

(** A second [set_api], a reboot and a move on the device whose key has
    been set. *)
Lemma api_key_frozen_until_erased_witness :
  let w :=
    device [(Some (Served (Api "set_api" "hunter2" "first")), WiFi_connected)]
      (exec setup (power_on (M := sim) (Stored example_settings))) in
  apikey
    (g_data
       (device [(Some (Served (Api "set_api" "other" "second")),
                 WiFi_connected);
                (Some (Served (Api "reboot" "true" "hunter2")),
                 WiFi_lost 3 None);
                (Some (Served (Api "move_motor" "10" "hunter2")),
                 WiFi_connected)] w))
  = apikey (g_data w).
Proof.
  refine (proj1 (api_key_frozen_until_erased (M := sim)
                   (Stored example_settings)
                   [(Some (Served (Api "set_api" "hunter2" "first")),
                     WiFi_connected)]
                   [(Some (Served (Api "set_api" "other" "second")),
                     WiFi_connected);
                    (Some (Served (Api "reboot" "true" "hunter2")),
                     WiFi_lost 3 None);
                    (Some (Served (Api "move_motor" "10" "hunter2")),
                     WiFi_connected)] _ _ _ _ _ _)).
  - vm_compute. right. reflexivity.
  - vm_compute. reflexivity.
  - vm_compute. reflexivity.
  - vm_compute. reflexivity.
  - vm_compute. reflexivity.
  - vm_compute. lia.
Defined.

(** The [set_host] action, a reboot and a press of a move button change
    none of the fields of the forms. *)
Lemma form_fields_change_only_by_forms_or_erase_witness :
  form_fields
    (g_data
       (device [(Some (Served (Api "set_host" "bedroom" example_key)),
                 WiFi_connected);
                (Some (Served (Api "reboot" "true" example_key)),
                 WiFi_connected);
                (Some (Served (Root true ["left1"])), WiFi_lost 31 None)]
          (device [] (exec setup (power_on (M := sim)
                                    (Stored example_settings))))))
  = form_fields
      (g_data (device [] (exec setup (power_on (M := sim)
                                        (Stored example_settings))))).
Proof.
  refine (form_fields_change_only_by_forms_or_erase (M := sim)
            (Stored example_settings) []
            [(Some (Served (Api "set_host" "bedroom" example_key)),
              WiFi_connected);
             (Some (Served (Api "reboot" "true" example_key)),
              WiFi_connected);
             (Some (Served (Root true ["left1"])), WiFi_lost 31 None)]
            _ _ _ _ _).
  - vm_compute. right. reflexivity.
  - vm_compute. reflexivity.
  - vm_compute. reflexivity.
  - vm_compute. reflexivity.
  - vm_compute. reflexivity.
Defined.

(** A move to the far left, the settings form and a reboot leave the left
    threshold where it is. *)
Lemma thresholds_change_only_by_calibration_or_erase_witness :
  let w :=
    device [(Some (Served (Api "set_left" "-30" example_key)),
             WiFi_connected)]
      (exec setup (power_on (M := sim) (Stored example_settings))) in
  position_left
    (g_data
       (device [(Some (Served (Api "move_motor" "-2000" example_key)),
                 WiFi_connected);
                (Some (Settings_form "settings" "admin" "notdodo" "27031969"
                         "eCurtains" "Nederlands" "Nema17 + A4988" "200"
                         "100.0" "250.0"), WiFi_connected);
                (Some (Served (Api "reboot" "true" example_key)),
                 WiFi_connected)] w))
  = position_left (g_data w).
Proof.
  refine (proj1 (thresholds_change_only_by_calibration_or_erase (M := sim)
                   (Stored example_settings)
                   [(Some (Served (Api "set_left" "-30" example_key)),
                     WiFi_connected)]
                   [(Some (Served (Api "move_motor" "-2000" example_key)),
                     WiFi_connected);
                    (Some (Settings_form "settings" "admin" "notdodo"
                             "27031969" "eCurtains" "Nederlands"
                             "Nema17 + A4988" "200" "100.0" "250.0"),
                     WiFi_connected);
                    (Some (Served (Api "reboot" "true" example_key)),
                     WiFi_connected)] _ _ _ _) _).
  - vm_compute. right. reflexivity.
  - vm_compute. reflexivity.
  - vm_compute. reflexivity.
  - vm_compute. reflexivity.
  - vm_compute. reflexivity.
Defined.

(** A move, an idle pass with the WiFi link down, an erase and a change
    of language, then the power is cut. *)
Lemma power_cycle_loses_nothing_witness :
  let w :=
    device [(Some (Served (Api "move_motor" "10" example_key)),
             WiFi_connected);
            (None, WiFi_lost 31 None);
            (Some Erase, WiFi_connected);
            (Some (Served (Api "set_language" "0" example_key)),
             WiFi_lost 2 (Some "192.168.1.20"))]
      (exec setup (power_on (M := sim) (Stored example_settings))) in
  g_data (reboot w) = g_data w.
Proof.
  refine (proj2 (proj2 (power_cycle_loses_nothing
                          (Stored example_settings)
                          [(Some (Served (Api "move_motor" "10" example_key)),
                            WiFi_connected);
                           (None, WiFi_lost 31 None);
                           (Some Erase, WiFi_connected);
                           (Some (Served (Api "set_language" "0"
                                            example_key)),
                            WiFi_lost 2 (Some "192.168.1.20"))]
                          _ _))).
  - vm_compute. right. reflexivity.
  - vm_compute. reflexivity.
Defined.

(** The language after an attempt to set it to 7 and a change of the
    settings form. *)
Lemma language_in_table_for_life_witness :
  language_ok
    (g_data
       (device [(Some (Served (Api "set_language" "7" example_key)),
                 WiFi_connected);
                (Some (Settings_form "settings" "admin" "notdodo" "27031969"
                         "eCurtains" "Nederlands" "Nema17 + A4988" "200"
                         "100.0" "250.0"), WiFi_connected)]
          (exec setup (power_on (M := sim) (Stored example_settings))))).
Proof.
  refine (language_in_table_for_life (Stored example_settings) _ _ _).
  - vm_compute. right. reflexivity.
  - vm_compute. reflexivity.
Defined.

(** The example settings were written by version 1.07: [setup] keeps
    them. *)
Lemma setup_checks_major_version_witness :
  g_data (exec setup (power_on (M := sim) (Stored example_settings)))
  = set_version g_current_version example_settings.
Proof.
  refine (proj1 (setup_checks_major_version (M := sim)
                   (Stored example_settings) _ _ _) _).
  - vm_compute. right. reflexivity.
  - vm_compute. reflexivity.
  - vm_compute. split; reflexivity.
  - vm_compute. reflexivity.
Defined.

(** The [reset] action of the API on the example device. *)
Lemma erase_forgets_motor_settings_witness :
  steps_per_revolution
    (g_data (device [(Some (Served (Api "reset" "true" example_key)),
                      WiFi_connected)]
               example_world))
  = S754_zero false.
Proof.
  refine (f_equal steps_per_revolution
            (proj1 (proj2 (erase_forgets_motor_settings
                             example_world example_key WiFi_connected
                             _ _)))).
  - vm_compute. reflexivity.
  - vm_compute. reflexivity.
Defined.

(** A move of 10 rotations on the device as it is after an erase. *)
Lemma move_without_steps_per_revolution_witness :
  let w := mk_world settings_after_erase (Stored settings_after_erase)
             example_motor false [] [] false in
  g_data (snd (move_motor (lit 100 1) w))
  = snd (planned_move (lit 100 1) settings_after_erase).
Proof.
  refine (proj1 (move_without_steps_per_revolution
                   (mk_world settings_after_erase
                      (Stored settings_after_erase) example_motor false []
                      [] false)
                   (lit 100 1) false _ _)).
  - vm_compute. reflexivity.
  - vm_compute. reflexivity.
Defined.


(** The settings form switches the example device to the Nema17. *)
Lemma settings_form_effect_witness :
  steps_match_motor
    (g_data (exec (handle_settings_ajax "settings" "admin" "notdodo"
                     "27031969" "eCurtains" "Nederlands" "Nema17 + A4988"
                     "4096" "100.0" "250.0") example_world)).
Proof.
  refine (proj1 (settings_form_effect example_world "admin" "notdodo"
                   "27031969" "eCurtains" "Nederlands" "Nema17 + A4988"
                   "4096" "100.0" "250.0" _ _)).
  - vm_compute. right. reflexivity.
  - vm_compute. reflexivity.
Defined.

(** [stop_motor] on the example device, whose motor has not moved. *)
Lemma stop_at_zero_changes_nothing_witness :
  g_data (exec (handle_api "stop_motor" "" example_key) example_world)
  = g_data example_world.
Proof.
  refine (proj1 (proj1 (stop_at_zero_changes_nothing example_world ""
                          example_key _ _ _ _))).
  - vm_compute. right. reflexivity.
  - vm_compute. reflexivity.
  - vm_compute. reflexivity.
  - vm_compute. reflexivity.
Defined.

(** The stop button on the Nema17 device that is 150 steps into a move. *)
Lemma stop_button_reconciles_once_witness :
  g_data (exec (handle_root true ["stop_motor"]) world_stopping)
  = g_data (exec handle_stop_motor world_stopping).
Proof.
  refine (proj1 (stop_button_reconciles_once world_stopping _ _)).
  - vm_compute. right. reflexivity.
  - vm_compute. reflexivity.
Defined.

(** The button [Reset Left] and the action [reset_left] on the example
    device. *)
Lemma web_buttons_agree_with_api_witness :
  same_device
    (exec handle_reset_left example_world)
    (exec (handle_api "reset_left" "x" example_key) example_world).
Proof.
  refine (proj1 (web_buttons_agree_with_api example_world example_key "x"
                   _ _ _ _ _ _)).
  - vm_compute. right. reflexivity.
  - vm_compute. reflexivity.
  - vm_compute. reflexivity.
  - vm_compute. reflexivity.
  - vm_compute. reflexivity.
  - vm_compute. reflexivity.
Defined.
